(** * Superset dashboard assets: header controller, response utilities,
      component-type registry

    A shallow embedding of three pieces of the JavaScript sources

    - the response utilities [callbackHandler] and [json],
    - the exported object literal that maps new-component ids to
      component types,
    - the React class [Header] of the dashboard,

    together with the properties the specification states about them.
    JavaScript numbers that are counts or HTTP status codes are integers and
    are modelled in [Z]; callbacks handed to the code are modelled either as
    higher-order arguments (response utilities) or as a log of the calls made
    (header component). *)

From Stdlib Require Import ZArith List String Bool Lia.
From stdpp Require Import base gmap strings list.

Local Open Scope string_scope.
Local Open Scope Z_scope.
Set Warnings "-register-all".

(** ** JavaScript values carried around as opaque payloads *)

Inductive jsval : Type :=
| JUndefined
| JNull
| JBool (b : bool)
| JNum (n : Z)
| JStr (s : string)
| JObj (fields : list (string * jsval)).

(** Result of running a statement that may [throw]. *)
Inductive completion (A : Type) : Type :=
| Return (a : A)
| Throw (msg : string).
Arguments Return {A} a.
Arguments Throw {A} msg.

(** A settled promise, as handed back by [response.json()]. *)
Inductive promise (A : Type) : Type :=
| Fulfilled (a : A)
| Rejected (reason : jsval).
Arguments Fulfilled {A} a.
Arguments Rejected {A} reason.

(** ** Response utilities *)

Module ResponseUtils.

(** The [status] of a response is a number, an HTTP status code, when it
    is there at all ([None] is [undefined]).  Against the literals [200]
    and [404] both [===] and [==] are then numeric equality, and
    [undefined] equals neither. *)
Definition js_num_eq (status : option Z) (n : Z) : bool :=
  match status with
  | Some m => m =? n
  | None => false
  end.

(** The object handed to [callbackHandler]: the fields it reads. *)
Record api_response : Type := {
  status : option Z;
  data : jsval;
  message : jsval
}.

(** [callbackHandler = (response, callback) => { callback && callback(..) }].
    The callback acts on some world [W]; a falsy callback is [None]. *)
Definition callbackHandler {W : Type} (response : api_response)
    (callback : option (bool -> jsval -> W -> W)) (w : W) : W :=
  match callback with
  | None => w
  | Some cb =>
      cb (if js_num_eq (status response) 200 then true else false)
         (if js_num_eq (status response) 200
          then data response else message response)
         w
  end.

(** The object handed to [json]: its status and its [json] method, if any. *)
Record http_response : Type := {
  http_status : option Z;
  json_method : option (unit -> promise jsval)
}.

(** [json = (response) => { if (!response || !response.json ||
    response.status == 404) throw new Error('no response');
    else return response.json(); }].  A falsy [response] is [None]. *)
Definition json (response : option http_response) : completion (promise jsval) :=
  match response with
  | None => Throw "no response"
  | Some r =>
      match json_method r with
      | None => Throw "no response"
      | Some decode =>
          if js_num_eq (http_status r) 404
          then Throw "no response"
          else Return (decode tt)
      end
  end.

(** A callback that only records the arguments it was called with. *)
Definition record_call (ok : bool) (payload : jsval)
    (calls : list (bool * jsval)) : list (bool * jsval) :=
  calls ++ [(ok, payload)].

(** The three conditions tested by [json], as a proposition. *)
Definition unusable (response : option http_response) : Prop :=
  match response with
  | None => True
  | Some r => json_method r = None \/ http_status r = Some 404
  end.

End ResponseUtils.

(** ** Component type registry *)

Module Registry.

(** The constants imported from [./componentTypes] and [./constants]; their
    values are not part of the registry's source. *)
Class ComponentTypes : Type := {
  CHART_TYPE : string;
  COLUMN_TYPE : string;
  DIVIDER_TYPE : string;
  HEADER_TYPE : string;
  MARKDOWN_TYPE : string;
  ROW_TYPE : string;
  TABS_TYPE : string;
  TAB_TYPE : string
}.

Class NewComponentIds : Type := {
  NEW_CHART_ID : string;
  NEW_COLUMN_ID : string;
  NEW_DIVIDER_ID : string;
  NEW_HEADER_ID : string;
  NEW_MARKDOWN_ID : string;
  NEW_ROW_ID : string;
  NEW_TABS_ID : string;
  NEW_TAB_ID : string
}.

(** The names of the properties every object literal inherits from
    [Object.prototype] (the ECMAScript standard, its Annex B included). *)
Definition Object_prototype_names : list string :=
  [ "constructor";
    "__defineGetter__";
    "__defineSetter__";
    "hasOwnProperty";
    "__lookupGetter__";
    "__lookupSetter__";
    "isPrototypeOf";
    "propertyIsEnumerable";
    "toString";
    "valueOf";
    "__proto__";
    "toLocaleString" ].

(** What reading [obj[key]] on an object literal gives: the value of a
    property the literal defines, the member of that name inherited from
    [Object.prototype], or [undefined]. *)
Inductive property : Type :=
| Own (value : string)
| Inherited (name : string)
| Undefined.

(** [obj[key]], [obj] being given by the properties it defines itself. *)
Definition read_property (obj : gmap string string) (key : string) : property :=
  match obj !! key with
  | Some value => Own value
  | None =>
      if existsb (String.eqb key) Object_prototype_names
      then Inherited key
      else Undefined
  end.

Section Literal.
Context {types : ComponentTypes} {ids : NewComponentIds}.

(** The computed-key properties of the exported object literal, top to
    bottom. *)
Definition entries : list (string * string) :=
  [ (NEW_CHART_ID, CHART_TYPE);
    (NEW_COLUMN_ID, COLUMN_TYPE);
    (NEW_DIVIDER_ID, DIVIDER_TYPE);
    (NEW_HEADER_ID, HEADER_TYPE);
    (NEW_MARKDOWN_ID, MARKDOWN_TYPE);
    (NEW_ROW_ID, ROW_TYPE);
    (NEW_TABS_ID, TABS_TYPE);
    (NEW_TAB_ID, TAB_TYPE) ].

(** An object literal defines its properties in order, a later one
    replacing an earlier one with the same key. *)
Definition define_properties (props : list (string * string))
    (obj : gmap string string) : gmap string string :=
  fold_left (fun o kv => <[kv.1 := kv.2]> o) props obj.

(** [export default { [NEW_CHART_ID]: CHART_TYPE, ... }]: the properties
    the literal defines (a computed key always defines one, whatever its
    name). *)
Definition newComponentIdToType : gmap string string :=
  define_properties entries ∅.

(** Reading [newComponentIdToType[id]]. *)
Definition type_of_id (id : string) : property :=
  read_property newComponentIdToType id.

End Literal.

End Registry.

(** ** Dashboard header component *)

Module Header.

(** What the component uses and does not define: the two constants it
    imports from [../util/constants] and the platform's [JSON.stringify]. *)
Class Imports : Type := {
  UNDO_LIMIT : Z;
  SAVE_TYPE_OVERWRITE : string;
  JSON_stringify : jsval -> string
}.

(** *** Props and state *)

Record dashboard_info : Type := {
  id : jsval;
  dash_edit_perm : bool;
  dash_save_perm : bool
}.

(** The data props of [propTypes]; the function props are the
    constructors of [call] below. *)
Record props : Type := {
  dashboardInfo : dashboard_info;
  dashboardTitle : string;
  charts : list (string * jsval);
  layout : jsval;
  filters : jsval;
  expandedSlices : jsval;
  css : string;
  isStarred : bool;
  editMode : bool;
  isV2Preview : bool;
  showBuilderPane : bool;
  hasUnsavedChanges : bool;
  maxUndoHistoryExceeded : bool;
  undoLength : Z;
  redoLength : Z
}.

(** A call made by the component to one of its function props. *)
Inductive call : Type :=
| onSave (data : jsval) (dashboardId : jsval) (saveType : string)
| onChange
| fetchCharts (chartList : list jsval) (force : bool)
| updateDashboardTitle (nextText : string)
| setEditMode (nextEditMode : bool)
| toggleBuilderPane
| onUndo
| onRedo
| setMaxUndoHistoryExceeded
| maxUndoHistoryToast.

(** [this.state].  The constructor initialises [hightlightRedo] (sic) and
    never [emphasizeRedo], which is therefore [undefined] ([None]) until
    the first redo. *)
Record state : Type := {
  didNotifyMaxUndoHistoryToast : bool;
  emphasizeUndo : bool;
  hightlightRedo : bool;
  emphasizeRedo : option bool;
  showV2PreviewModal : bool
}.

Definition truthy (b : option bool) : bool :=
  match b with Some true => true | _ => false end.

(** *** The browser's timers *)

(** The two arrow functions handed to [setTimeout]. *)
Inductive timer_callback : Type :=
| emphasizeRedo_off
| emphasizeUndo_off.

Definition timer_callback_eqb (a b : timer_callback) : bool :=
  match a, b with
  | emphasizeRedo_off, emphasizeRedo_off => true
  | emphasizeUndo_off, emphasizeUndo_off => true
  | _, _ => false
  end.

(** Timer handles are integers greater than zero, hence always truthy. *)
Record timer : Type := {
  handle : positive;
  fires_at : Z;
  callback : timer_callback
}.

Record browser : Type := {
  clock : Z;
  next_handle : positive;
  timers : list timer
}.

Definition setTimeout (cb : timer_callback) (delay : Z) (b : browser)
    : positive * browser :=
  (next_handle b,
   {| clock := clock b;
      next_handle := Pos.succ (next_handle b);
      timers := timers b ++
        [{| handle := next_handle b;
            fires_at := clock b + delay;
            callback := cb |}] |}).

Definition clearTimeout (h : positive) (b : browser) : browser :=
  {| clock := clock b;
     next_handle := next_handle b;
     timers := List.filter (fun tm => negb (Pos.eqb (handle tm) h)) (timers b) |}.

(** *** The state-management collaborator *)

(** Modelled from the spec: the external store behind the function props
    (its reducers are not part of the component's source).  It owns the
    edit-mode flag, the sticky [maxUndoHistoryExceeded] flag and the
    history stack of layouts; [setEditMode] stores its argument,
    [setMaxUndoHistoryExceeded] raises the flag, [onUndo] and [onRedo]
    move one entry between the two halves of the history, every other
    call leaves these untouched. *)
Record store : Type := {
  store_editMode : bool;
  store_maxUndoHistoryExceeded : bool;
  past : list jsval;
  present : jsval;
  future : list jsval
}.

(** Modelled from the spec: what a call of a function prop does to the
    store (the action creators and reducers are missing from the source). *)
Definition dispatch (c : call) (s : store) : store :=
  match c with
  | setEditMode b =>
      {| store_editMode := b;
         store_maxUndoHistoryExceeded := store_maxUndoHistoryExceeded s;
         past := past s; present := present s; future := future s |}
  | setMaxUndoHistoryExceeded =>
      {| store_editMode := store_editMode s;
         store_maxUndoHistoryExceeded := true;
         past := past s; present := present s; future := future s |}
  | onUndo =>
      match past s with
      | [] => s
      | x :: older =>
          {| store_editMode := store_editMode s;
             store_maxUndoHistoryExceeded := store_maxUndoHistoryExceeded s;
             past := older; present := x; future := present s :: future s |}
      end
  | onRedo =>
      match future s with
      | [] => s
      | x :: newer =>
          {| store_editMode := store_editMode s;
             store_maxUndoHistoryExceeded := store_maxUndoHistoryExceeded s;
             past := present s :: past s; present := x; future := newer |}
      end
  | _ => s
  end.

(** Modelled from the spec: the container that is missing from the
    source hands the component the store's two flags as props; everything
    else is the parent's. *)
Definition connect (s : store) (p : props) : props :=
  {| dashboardInfo := dashboardInfo p;
     dashboardTitle := dashboardTitle p;
     charts := charts p;
     layout := layout p;
     filters := filters p;
     expandedSlices := expandedSlices p;
     css := css p;
     isStarred := isStarred p;
     editMode := store_editMode s;
     isV2Preview := isV2Preview p;
     showBuilderPane := showBuilderPane p;
     hasUnsavedChanges := hasUnsavedChanges p;
     maxUndoHistoryExceeded := store_maxUndoHistoryExceeded s;
     undoLength := undoLength p;
     redoLength := redoLength p |}.

(** *** The component instance in its environment *)

Record world : Type := {
  this_props : props;
  this_state : state;
  ctrlYTimeout : option positive;
  ctrlZTimeout : option positive;
  window : browser;
  redux : store;
  calls : list call
}.

(** Calling a function prop: the call is logged and reaches the store.
    [this.props] stays as it is until React delivers new props. *)
Definition invoke (c : call) (w : world) : world :=
  {| this_props := this_props w;
     this_state := this_state w;
     ctrlYTimeout := ctrlYTimeout w;
     ctrlZTimeout := ctrlZTimeout w;
     window := window w;
     redux := dispatch c (redux w);
     calls := calls w ++ [c] |}.

(** [this.setState(update)].  No method reads [this.state] after calling
    [setState], so the update is applied at once. *)
Definition setState (update : state -> state) (w : world) : world :=
  {| this_props := this_props w;
     this_state := update (this_state w);
     ctrlYTimeout := ctrlYTimeout w;
     ctrlZTimeout := ctrlZTimeout w;
     window := window w;
     redux := redux w;
     calls := calls w |}.

Definition with_window (b : browser) (w : world) : world :=
  {| this_props := this_props w;
     this_state := this_state w;
     ctrlYTimeout := ctrlYTimeout w;
     ctrlZTimeout := ctrlZTimeout w;
     window := b;
     redux := redux w;
     calls := calls w |}.

Definition with_ctrlYTimeout (h : option positive) (w : world) : world :=
  {| this_props := this_props w;
     this_state := this_state w;
     ctrlYTimeout := h;
     ctrlZTimeout := ctrlZTimeout w;
     window := window w;
     redux := redux w;
     calls := calls w |}.

Definition with_ctrlZTimeout (h : option positive) (w : world) : world :=
  {| this_props := this_props w;
     this_state := this_state w;
     ctrlYTimeout := ctrlYTimeout w;
     ctrlZTimeout := h;
     window := window w;
     redux := redux w;
     calls := calls w |}.

Definition with_props (p : props) (w : world) : world :=
  {| this_props := p;
     this_state := this_state w;
     ctrlYTimeout := ctrlYTimeout w;
     ctrlZTimeout := ctrlZTimeout w;
     window := window w;
     redux := redux w;
     calls := calls w |}.

(** The state updates written in the source. *)
Definition set_didNotifyMaxUndoHistoryToast (v : bool) (s : state) : state :=
  {| didNotifyMaxUndoHistoryToast := v;
     emphasizeUndo := emphasizeUndo s;
     hightlightRedo := hightlightRedo s;
     emphasizeRedo := emphasizeRedo s;
     showV2PreviewModal := showV2PreviewModal s |}.

Definition set_emphasizeUndo (v : bool) (s : state) : state :=
  {| didNotifyMaxUndoHistoryToast := didNotifyMaxUndoHistoryToast s;
     emphasizeUndo := v;
     hightlightRedo := hightlightRedo s;
     emphasizeRedo := emphasizeRedo s;
     showV2PreviewModal := showV2PreviewModal s |}.

Definition set_emphasizeRedo (v : bool) (s : state) : state :=
  {| didNotifyMaxUndoHistoryToast := didNotifyMaxUndoHistoryToast s;
     emphasizeUndo := emphasizeUndo s;
     hightlightRedo := hightlightRedo s;
     emphasizeRedo := Some v;
     showV2PreviewModal := showV2PreviewModal s |}.

Definition set_showV2PreviewModal (v : bool) (s : state) : state :=
  {| didNotifyMaxUndoHistoryToast := didNotifyMaxUndoHistoryToast s;
     emphasizeUndo := emphasizeUndo s;
     hightlightRedo := hightlightRedo s;
     emphasizeRedo := emphasizeRedo s;
     showV2PreviewModal := v |}.

(** *** The methods of the class *)

Section Methods.
Context {imports : Imports}.

(** [constructor(props)]: the initial [this.state]. *)
Definition initial_state (p : props) : state :=
  {| didNotifyMaxUndoHistoryToast := false;
     emphasizeUndo := false;
     hightlightRedo := false;
     emphasizeRedo := None;
     showV2PreviewModal := isV2Preview p |}.

Definition componentWillReceiveProps (nextProps : props) (w : world) : world :=
  let w :=
    if (UNDO_LIMIT - undoLength nextProps <=? 0)
       && negb (didNotifyMaxUndoHistoryToast (this_state w))
    then invoke maxUndoHistoryToast
           (setState (set_didNotifyMaxUndoHistoryToast true) w)
    else w in
  if (undoLength nextProps >? UNDO_LIMIT)
     && negb (maxUndoHistoryExceeded (this_props w))
  then invoke setMaxUndoHistoryExceeded w
  else w.

Definition forceRefresh (w : world) : world :=
  invoke (fetchCharts (map snd (charts (this_props w))) true) w.

(** [nextText &&]: a string is truthy when it is not empty. *)
Definition handleChangeText (nextText : string) (w : world) : world :=
  if negb (String.eqb nextText "")
     && negb (String.eqb (dashboardTitle (this_props w)) nextText)
  then invoke onChange (invoke (updateDashboardTitle nextText) w)
  else w.

Definition handleCtrlY (w : world) : world :=
  let w := invoke onRedo w in
  let w := setState (set_emphasizeRedo true) w in
  let w :=
    match ctrlYTimeout w with
    | Some h => with_window (clearTimeout h (window w)) w
    | None => w
    end in
  let '(h, b) := setTimeout emphasizeRedo_off 100 (window w) in
  with_ctrlYTimeout (Some h) (with_window b w).

Definition handleCtrlZ (w : world) : world :=
  let w := invoke onUndo w in
  let w := setState (set_emphasizeUndo true) w in
  let w :=
    match ctrlZTimeout w with
    | Some h => with_window (clearTimeout h (window w)) w
    | None => w
    end in
  let '(h, b) := setTimeout emphasizeUndo_off 100 (window w) in
  with_ctrlZTimeout (Some h) (with_window b w).

Definition toggleEditMode (w : world) : world :=
  invoke (setEditMode (negb (editMode (this_props w)))) w.

Definition toggleShowV2PreviewModal (w : world) : world :=
  setState (set_showV2PreviewModal (negb (showV2PreviewModal (this_state w)))) w.

(** The object literal [data] of [overwriteDashboard]. *)
Definition save_data (p : props) : list (string * jsval) :=
  [ ("positions", layout p);
    ("expanded_slices", expandedSlices p);
    ("css", JStr (css p));
    ("dashboard_title", JStr (dashboardTitle p));
    ("default_filters", JStr (JSON_stringify (filters p))) ].

Definition overwriteDashboard (w : world) : world :=
  invoke (onSave (JObj (save_data (this_props w)))
                 (id (dashboardInfo (this_props w)))
                 SAVE_TYPE_OVERWRITE) w.

(** *** Timers firing *)

Definition run_timer (cb : timer_callback) (w : world) : world :=
  match cb with
  | emphasizeRedo_off => setState (set_emphasizeRedo false) w
  | emphasizeUndo_off => setState (set_emphasizeUndo false) w
  end.

Definition is_due (t : Z) (tm : timer) : bool := fires_at tm <=? t.

(** [ms] milliseconds pass: every timer due by then runs and is
    forgotten.  All timers are armed with the same delay, so the order
    of arming kept by [timers] is the order of firing. *)
Definition elapse (ms : N) (w : world) : world :=
  let t := clock (window w) + Z.of_N ms in
  let due := List.filter (is_due t) (timers (window w)) in
  let later := List.filter (fun tm => negb (is_due t tm)) (timers (window w)) in
  let w := with_window {| clock := t;
                          next_handle := next_handle (window w);
                          timers := later |} w in
  fold_left (fun w tm => run_timer (callback tm) w) due w.

(** *** What [render] wires to the page *)

(** The functions [render] installs as event handlers. *)
Inductive handler : Type :=
| props_onUndo
| props_onRedo
| props_toggleBuilderPane
| this_handleCtrlZ
| this_handleCtrlY
| this_toggleEditMode
| this_overwriteDashboard
| this_toggleShowV2PreviewModal
| this_forceRefresh.

Definition perform (h : handler) (w : world) : world :=
  match h with
  | props_onUndo => invoke onUndo w
  | props_onRedo => invoke onRedo w
  | props_toggleBuilderPane => invoke toggleBuilderPane w
  | this_handleCtrlZ => handleCtrlZ w
  | this_handleCtrlY => handleCtrlY w
  | this_toggleEditMode => toggleEditMode w
  | this_overwriteDashboard => overwriteDashboard w
  | this_toggleShowV2PreviewModal => toggleShowV2PreviewModal w
  | this_forceRefresh => forceRefresh w
  end.

(** *** A session *)

(** What can happen to a mounted header: React delivers new props, time
    passes, one of the installed handlers runs, or the title editor
    saves a text.  Unmounting (which clears both timers) and
    [discardChanges] (a page reload) end the session and are not events
    of it. *)
Inductive event : Type :=
| Receive (nextProps : props)
| Elapse (ms : N)
| Fire (h : handler)
| SaveTitle (nextText : string).

(** The container makes the props from the store as it is now, React
    calls [componentWillReceiveProps] with them and then installs them as
    [this.props]: what the method itself sends to the store shows in the
    props only at a later delivery. *)
Definition receive (nextProps : props) (w : world) : world :=
  let delivered := connect (redux w) nextProps in
  let w := componentWillReceiveProps delivered w in
  with_props delivered w.

Definition step (w : world) (e : event) : world :=
  match e with
  | Receive nextProps => receive nextProps w
  | Elapse ms => elapse ms w
  | Fire h => perform h w
  | SaveTitle nextText => handleChangeText nextText w
  end.

Definition run (w : world) (es : list event) : world := fold_left step es w.

(** The header right after mounting with props [p] over store [s]. *)
Definition mount (p : props) (s : store) : world :=
  {| this_props := connect s p;
     this_state := initial_state (connect s p);
     ctrlYTimeout := None;
     ctrlZTimeout := None;
     window := {| clock := 0; next_handle := 1%positive; timers := [] |};
     redux := s;
     calls := [] |}.

End Methods.

(** *** [render] *)

(** The elements [render] produces, with the attributes it sets.  A
    message passed through the translation function [t] is kept as its
    key. *)
Inductive node : Type :=
| div (className : string) (title : option string)
      (onClick : option handler) (children : list node)
| span (className : string) (children : list node)
| text (message : string)
| EditableTitle (title : string) (canEdit : bool) (showTooltip : bool)
| FaveStar (itemId : jsval) (starred : bool)
| V2PreviewModal (onClose : handler)
| Button (onClick : handler) (disabled : option bool)
         (bsStyle : option string) (children : list node)
| HeaderActionsDropdown (dashboardId : jsval) (title : string)
      (positions filterState expanded : jsval) (style : string)
      (editing unsaved userCanEdit v2Preview : bool)
| UndoRedoKeylisteners (undoHandler redoHandler : handler).

(** [{cond && <X />}]: the element when [cond] holds, nothing otherwise. *)
Definition when {A : Type} (cond : bool) (x : A) : list A :=
  if cond then [x] else [].

(** [version] is [window.featureToggles.dashboard_details.version]. *)
Definition render (version : string) (p : props) (s : state) : node :=
  let isV2 := String.eqb version "v2" in
  let _isV2Preview := if isV2 then false else true in
  let userCanEdit := dash_edit_perm (dashboardInfo p) in
  let userCanSaveAs := dash_save_perm (dashboardInfo p) in
  let popButton := hasUnsavedChanges p || isV2Preview p in
  div "dashboard-header" None None
    ([ div "dashboard-component-header header-large" None None
         ([ EditableTitle (dashboardTitle p) (userCanEdit && editMode p) false;
            span "favstar" [FaveStar (id (dashboardInfo p)) (isStarred p)] ]
          ++ when _isV2Preview
               (div "v2-preview-badge" None (Some this_toggleShowV2PreviewModal)
                  [text "v2 Preview"; span "fa fa-info-circle m-l-5" []])
          ++ when (_isV2Preview && showV2PreviewModal s)
               (V2PreviewModal this_toggleShowV2PreviewModal)) ]
     ++ when userCanSaveAs
          (div "button-container" None None
             (when (editMode p)
                (Button props_onUndo (Some (undoLength p <? 1))
                   (if emphasizeUndo s then Some "primary" else None)
                   [div "undo-action fa fa-reply" (Some "Undo") None []])
              ++ when (editMode p)
                (Button props_onRedo (Some (redoLength p <? 1))
                   (if truthy (emphasizeRedo s) then Some "primary" else None)
                   [div "redo-action fa fa-share" (Some "Redo") None []])
              ++ when (editMode p)
                (Button props_toggleBuilderPane None None
                   [text (if showBuilderPane p
                          then "Hide components" else "Insert components")])
              ++ when (editMode p && (hasUnsavedChanges p || isV2Preview p))
                (Button this_overwriteDashboard None
                   (if popButton then Some "primary" else None)
                   [text (if _isV2Preview
                          then "Persist as Dashboard v2" else "Save changes")])
              ++ when (negb (editMode p) && isV2Preview p)
                (Button this_toggleEditMode (Some (negb userCanEdit))
                   (if popButton then Some "primary" else None)
                   [text "Edit"])
              ++ when (negb (editMode p) && negb (isV2Preview p)
                       && negb (hasUnsavedChanges p))
                (Button this_toggleEditMode (Some (negb userCanEdit))
                   (if popButton then Some "primary" else None)
                   [text "Edit dashboard"])
              ++ when (editMode p && negb (isV2Preview p)
                       && negb (hasUnsavedChanges p))
                (Button this_toggleEditMode (Some (negb userCanEdit))
                   None
                   [text "Switch to view mode"])
              ++ [ HeaderActionsDropdown (id (dashboardInfo p)) (dashboardTitle p)
                     (layout p) (filters p) (expandedSlices p) (css p)
                     (editMode p) (hasUnsavedChanges p) userCanEdit
                     (isV2Preview p) ]
              ++ when (editMode p)
                (UndoRedoKeylisteners this_handleCtrlZ this_handleCtrlY)))).

(** The [Button] elements of a rendered tree, as (handler, disabled). *)
Fixpoint buttons (n : node) : list (handler * option bool) :=
  match n with
  | div _ _ _ children => flat_map buttons children
  | span _ children => flat_map buttons children
  | Button h d _ _ => [(h, d)]
  | _ => []
  end.

Definition handler_eqb (a b : handler) : bool :=
  match a, b with
  | props_onUndo, props_onUndo
  | props_onRedo, props_onRedo
  | props_toggleBuilderPane, props_toggleBuilderPane
  | this_handleCtrlZ, this_handleCtrlZ
  | this_handleCtrlY, this_handleCtrlY
  | this_toggleEditMode, this_toggleEditMode
  | this_overwriteDashboard, this_overwriteDashboard
  | this_toggleShowV2PreviewModal, this_toggleShowV2PreviewModal
  | this_forceRefresh, this_forceRefresh => true
  | _, _ => false
  end.

(** Whether the rendered tree has a button wired to [h]. *)
Definition offers (h : handler) (n : node) : bool :=
  existsb (fun b => handler_eqb (fst b) h) (buttons n).

Definition with_dash_edit_perm (v : bool) (p : props) : props :=
  {| dashboardInfo :=
       {| id := id (dashboardInfo p);
          dash_edit_perm := v;
          dash_save_perm := dash_save_perm (dashboardInfo p) |};
     dashboardTitle := dashboardTitle p;
     charts := charts p;
     layout := layout p;
     filters := filters p;
     expandedSlices := expandedSlices p;
     css := css p;
     isStarred := isStarred p;
     editMode := editMode p;
     isV2Preview := isV2Preview p;
     showBuilderPane := showBuilderPane p;
     hasUnsavedChanges := hasUnsavedChanges p;
     maxUndoHistoryExceeded := maxUndoHistoryExceeded p;
     undoLength := undoLength p;
     redoLength := redoLength p |}.

Definition with_undoLength (n : Z) (p : props) : props :=
  {| dashboardInfo := dashboardInfo p;
     dashboardTitle := dashboardTitle p;
     charts := charts p;
     layout := layout p;
     filters := filters p;
     expandedSlices := expandedSlices p;
     css := css p;
     isStarred := isStarred p;
     editMode := editMode p;
     isV2Preview := isV2Preview p;
     showBuilderPane := showBuilderPane p;
     hasUnsavedChanges := hasUnsavedChanges p;
     maxUndoHistoryExceeded := maxUndoHistoryExceeded p;
     undoLength := n;
     redoLength := redoLength p |}.

(** *** Observations on a session, used to state its properties *)

Definition is_toast (c : call) : bool :=
  match c with maxUndoHistoryToast => true | _ => false end.

Definition is_save (c : call) : bool :=
  match c with onSave _ _ _ => true | _ => false end.

(** How often the notification callback has been called so far. *)
Definition toast_count (w : world) : nat :=
  length (List.filter is_toast (calls w)).

(** How often the persistence collaborator has been called so far. *)
Definition save_count (w : world) : nat :=
  length (List.filter is_save (calls w)).

Definition runs (cb : timer_callback) (tm : timer) : bool :=
  timer_callback_eqb (callback tm) cb.

(** The pending timers of the page that will run callback [cb]. *)
Definition armed (cb : timer_callback) (b : browser) : list timer :=
  List.filter (runs cb) (timers b).

(** Reading a property of an object literal. *)
Fixpoint get_field (key : string) (fields : list (string * jsval)) : option jsval :=
  match fields with
  | [] => None
  | (k, v) :: rest => if String.eqb k key then Some v else get_field key rest
  end.

(** Milliseconds elapsed since handler [h] last ran ([None]: it never
    did), read off the events alone. *)
Definition since_step (h : handler) (acc : option N) (e : event) : option N :=
  match e with
  | Fire h' => if handler_eqb h' h then Some 0%N else acc
  | Elapse ms =>
      match acc with
      | Some d => Some (d + ms)%N
      | None => None
      end
  | _ => acc
  end.

Definition since_last (h : handler) (es : list event) : option N :=
  fold_left (since_step h) es None.

(** The pulse of handler [h] as the specification describes it: on for
    the 100 ms that follow the latest run of [h]. *)
Definition in_pulse_window (h : handler) (es : list event) : bool :=
  match since_last h es with
  | Some d => (d <? 100)%N
  | None => false
  end.

Section Limits.
Context {imports : Imports}.

(** The update brings the history to its limit: the first condition
    tested by [componentWillReceiveProps]. *)
Definition at_limit (e : event) : bool :=
  match e with
  | Receive nextProps => UNDO_LIMIT - undoLength nextProps <=? 0
  | _ => false
  end.

(** The updates [undoLength = 0, 1, ..., UNDO_LIMIT + 1], all other
    props being those of [p]. *)
Definition counting_up (p : props) : list event :=
  map (fun n => Receive (with_undoLength (Z.of_nat n) p))
      (seq 0 (Z.to_nat (UNDO_LIMIT + 2))).

End Limits.

(** *** Invariants of a session *)

(** [this.props] may lag behind the store, but it never shows a sticky
    flag the store does not have. *)
Definition flag_seen_is_stored (w : world) : Prop :=
  maxUndoHistoryExceeded (this_props w) = true ->
  store_maxUndoHistoryExceeded (redux w) = true.

(** The events that forward an undo or a redo to the history. *)
Definition undoes_or_redoes (e : event) : bool :=
  match e with
  | Fire props_onUndo | Fire this_handleCtrlZ
  | Fire props_onRedo | Fire this_handleCtrlY => true
  | _ => false
  end.

Definition toggles_edit_mode (e : event) : bool :=
  match e with
  | Fire this_toggleEditMode => true
  | _ => false
  end.

(** How the instance field [h] holding a timer handle, the state flag
    [flag] and the page's timers for callback [cb] stand when the
    handler that arms [cb] last ran [d] ms ago: within the window the flag
    is up and exactly one timer is armed, the one [h] names, due 100 ms
    after that run; otherwise the flag is down and no timer is armed. *)
Definition pulse_ok (cb : timer_callback) (h : option positive)
    (flag : bool) (d : option N) (b : browser) : Prop :=
  match d with
  | None => h = None /\ flag = false /\ armed cb b = []
  | Some d =>
      exists i : positive,
        h = Some i /\ (i < next_handle b)%positive /\
        if (d <? 100)%N
        then flag = true /\
             armed cb b =
               [{| handle := i;
                   fires_at := clock b - Z.of_N d + 100;
                   callback := cb |}]
        else flag = false /\ armed cb b = []
  end.

Definition pulses_ok (dZ dY : option N) (w : world) : Prop :=
  pulse_ok emphasizeUndo_off (ctrlZTimeout w)
    (emphasizeUndo (this_state w)) dZ (window w)
  /\ pulse_ok emphasizeRedo_off (ctrlYTimeout w)
       (truthy (emphasizeRedo (this_state w))) dY (window w)
  /\ (forall a b, ctrlZTimeout w = Some a -> ctrlYTimeout w = Some b -> a <> b).

(** The page after [ms] more milliseconds: the clock has advanced and
    the timers due by then are gone (the [window] that [elapse] leaves). *)
Definition elapsed (ms : N) (b : browser) : browser :=
  {| clock := clock b + Z.of_N ms;
     next_handle := next_handle b;
     timers := List.filter (fun tm => negb (is_due (clock b + Z.of_N ms) tm))
                 (timers b) |}.

(** What the [setState] callback of [handleCtrlZ] and [handleCtrlY] does
    to the page: clear the timer named by the instance field [h], if any,
    and arm a new one for [cb]. *)
Definition rearm (cb : timer_callback) (h : option positive) (b : browser)
    : browser :=
  snd (setTimeout cb 100
         (match h with Some i => clearTimeout i b | None => b end)).

(** *** Sample values *)

(** Values to run the model on; the serialiser is a stand-in. *)
Definition sample_imports : Imports :=
  {| UNDO_LIMIT := 50;
     SAVE_TYPE_OVERWRITE := "overwrite";
     JSON_stringify := fun _ => "{}" |}.

Definition sample_props : props :=
  {| dashboardInfo :=
       {| id := JNum 7; dash_edit_perm := true; dash_save_perm := true |};
     dashboardTitle := "Sales";
     charts := [];
     layout := JObj [];
     filters := JObj [];
     expandedSlices := JObj [];
     css := "";
     isStarred := false;
     editMode := true;
     isV2Preview := false;
     showBuilderPane := false;
     hasUnsavedChanges := true;
     maxUndoHistoryExceeded := false;
     undoLength := 0;
     redoLength := 0 |}.

Definition sample_store : store :=
  {| store_editMode := true;
     store_maxUndoHistoryExceeded := false;
     past := [];
     present := JObj [];
     future := [] |}.

End Header.

(** ** Visualization catalog *)

Module Catalog.

(** The properties of the object literal [viz_types], top to bottom. *)
Definition viz_types_properties : list (string * string) :=
  [
    ("area", "area");
    ("bar", "bar");
    ("big_number", "big_number");
    ("big_number_total", "big_number_total");
    ("box_plot", "box_plot");
    ("bubble", "bubble");
    ("bullet", "bullet");
    ("cal_heatmap", "cal_heatmap");
    ("compare", "compare");
    ("directed_force", "directed_force");
    ("chord", "chord");
    ("dist_bar", "dist_bar");
    ("filter_box", "filter_box");
    ("heatmap", "heatmap");
    ("histogram", "histogram");
    ("horizon", "horizon");
    ("iframe", "iframe");
    ("line", "line");
    ("line_multi", "line_multi");
    ("mapbox", "mapbox");
    ("markup", "markup");
    ("para", "para");
    ("pie", "pie");
    ("pivot_table", "pivot_table");
    ("sankey", "sankey");
    ("separator", "separator");
    ("sunburst", "sunburst");
    ("table", "table");
    ("time_table", "time_table");
    ("time_pivot", "time_pivot");
    ("treemap", "treemap");
    ("country_map", "country_map");
    ("word_cloud", "word_cloud");
    ("world_map", "world_map");
    ("dual_line", "dual_line");
    ("event_flow", "event_flow");
    ("paired_ttest", "paired_ttest");
    ("partition", "partition");
    ("deck_scatter", "deck_scatter");
    ("deck_screengrid", "deck_screengrid");
    ("deck_grid", "deck_grid");
    ("deck_hex", "deck_hex");
    ("deck_path", "deck_path");
    ("deck_geojson", "deck_geojson");
    ("deck_multi", "deck_multi");
    ("deck_arc", "deck_arc");
    ("deck_polygon", "deck_polygon");
    ("rose", "rose") ].

(** [export const viz_types = { area: 'area', ... }]: the properties the
    literal defines; [viz_types[name]] is [Registry.read_property viz_types
    name]. *)
Definition viz_types : gmap string string :=
  Registry.define_properties viz_types_properties ∅.

End Catalog.

(** ** Dashboard header: the rest of the class and ways to look at it *)

Module HeaderViews.
Import Header.

(** [clearTimeout(h)] for an instance field [h] that may still be
    [undefined], in which case nothing is cleared. *)
Definition clear_handle (h : option positive) (b : browser) : browser :=
  match h with
  | Some i => clearTimeout i b
  | None => b
  end.

(** [componentWillUnmount() { clearTimeout(this.ctrlYTimeout);
    clearTimeout(this.ctrlZTimeout); }]. *)
Definition componentWillUnmount (w : world) : world :=
  let w := with_window (clear_handle (ctrlYTimeout w) (window w)) w in
  with_window (clear_handle (ctrlZTimeout w) (window w)) w.

Definition with_hightlightRedo (v : bool) (s : state) : state :=
  {| didNotifyMaxUndoHistoryToast := didNotifyMaxUndoHistoryToast s;
     emphasizeUndo := emphasizeUndo s;
     hightlightRedo := v;
     emphasizeRedo := emphasizeRedo s;
     showV2PreviewModal := showV2PreviewModal s |}.

(** *** Looking into a rendered tree *)

(** Every element of a tree, the root first. *)
Fixpoint elements (n : node) : list node :=
  n :: match n with
       | div _ _ _ children => flat_map elements children
       | span _ children => flat_map elements children
       | Button _ _ _ children => flat_map elements children
       | _ => []
       end.

Definition shows (kind : node -> bool) (n : node) : bool :=
  existsb kind (elements n).

Definition is_badge (n : node) : bool :=
  match n with
  | div className _ _ _ => String.eqb className "v2-preview-badge"
  | _ => false
  end.

Definition is_modal (n : node) : bool :=
  match n with V2PreviewModal _ => true | _ => false end.

Definition is_dropdown (n : node) : bool :=
  match n with HeaderActionsDropdown _ _ _ _ _ _ _ _ _ _ => true | _ => false end.

Definition is_keylisteners (n : node) : bool :=
  match n with UndoRedoKeylisteners _ _ => true | _ => false end.

Definition is_button (n : node) : bool :=
  match n with Button _ _ _ _ => true | _ => false end.

(** The [canEdit] attribute of the title editors of a tree. *)
Definition title_editable (n : node) : list bool :=
  flat_map (fun e => match e with
                     | EditableTitle _ canEdit _ => [canEdit]
                     | _ => []
                     end) (elements n).

(** The [Button] elements of a tree, as (handler, bsStyle). *)
Definition styled_buttons (n : node) : list (handler * option string) :=
  flat_map (fun e => match e with
                     | Button h _ style _ => [(h, style)]
                     | _ => []
                     end) (elements n).

(** The text on the buttons wired to [h]. *)
Definition button_texts (h : handler) (n : node) : list string :=
  flat_map (fun e => match e with
                     | Button h' _ _ [text message] =>
                         if handler_eqb h' h then [message] else []
                     | _ => []
                     end) (elements n).

(** The buttons that save or that switch the edit mode. *)
Definition saves_or_toggles (b : handler * option bool) : bool :=
  handler_eqb (fst b) this_overwriteDashboard
  || handler_eqb (fst b) this_toggleEditMode.

(** *** Counting events and calls *)

Definition fires (h : handler) (e : event) : bool :=
  match e with
  | Fire h' => handler_eqb h' h
  | _ => false
  end.

Definition count_fires (h : handler) (es : list event) : nat :=
  length (List.filter (fires h) es).

Definition count_calls (kind : call -> bool) (w : world) : nat :=
  length (List.filter kind (calls w)).

Definition is_onUndo (c : call) : bool :=
  match c with onUndo => true | _ => false end.

Definition is_onRedo (c : call) : bool :=
  match c with onRedo => true | _ => false end.

Definition is_setEditMode (c : call) : bool :=
  match c with setEditMode _ => true | _ => false end.

Definition is_toggleBuilderPane (c : call) : bool :=
  match c with toggleBuilderPane => true | _ => false end.

Definition is_fetchCharts (c : call) : bool :=
  match c with fetchCharts _ _ => true | _ => false end.

Definition is_forced_or_other (c : call) : bool :=
  match c with fetchCharts _ force => force | _ => true end.

Definition is_updateDashboardTitle (c : call) : bool :=
  match c with updateDashboardTitle _ => true | _ => false end.

Definition is_onChange (c : call) : bool :=
  match c with onChange => true | _ => false end.

Definition is_setMaxUndoHistoryExceeded (c : call) : bool :=
  match c with setMaxUndoHistoryExceeded => true | _ => false end.

(** No title is sent empty. *)
Definition sends_a_title (c : call) : bool :=
  match c with
  | updateDashboardTitle nextText => negb (String.eqb nextText "")
  | _ => true
  end.

(** In a log of calls every [updateDashboardTitle] is followed at once by
    an [onChange], and no [onChange] comes without one. *)
Fixpoint titles_paired (log : list call) : bool :=
  match log with
  | [] => true
  | updateDashboardTitle _ :: rest =>
      match rest with
      | onChange :: rest' => titles_paired rest'
      | _ => false
      end
  | onChange :: _ => false
  | _ :: rest => titles_paired rest
  end.

(** In a log of calls the notification comes before the first
    [setMaxUndoHistoryExceeded], if there is one. *)
Fixpoint notified_before_flag (log : list call) : bool :=
  match log with
  | [] => true
  | maxUndoHistoryToast :: _ => true
  | setMaxUndoHistoryExceeded :: _ => false
  | _ :: rest => notified_before_flag rest
  end.

(** What is left of [this.state] once timers have run, [undo] telling
    whether one of them switches the undo emphasis off and [redo] likewise
    for redo. *)
Definition after_timers (undo redo : bool) (s : state) : state :=
  {| didNotifyMaxUndoHistoryToast := didNotifyMaxUndoHistoryToast s;
     emphasizeUndo := if undo then false else emphasizeUndo s;
     hightlightRedo := hightlightRedo s;
     emphasizeRedo := if redo then Some false else emphasizeRedo s;
     showV2PreviewModal := showV2PreviewModal s |}.

(** How the state flag [didNotifyMaxUndoHistoryToast] and the log of
    calls stand to each other: with the flag up the notification is in the
    log, ahead of any [setMaxUndoHistoryExceeded]; with the flag down the
    log has neither call. *)
Definition notification_logged (w : world) : Prop :=
  if didNotifyMaxUndoHistoryToast (this_state w)
  then existsb is_toast (calls w) = true
       /\ notified_before_flag (calls w) = true
  else existsb is_toast (calls w) = false
       /\ existsb is_setMaxUndoHistoryExceeded (calls w) = false.

End HeaderViews.

(** Values to run the registry on. *)
Module RegistrySamples.
Import Registry.

Definition sample_types : ComponentTypes :=
  {| CHART_TYPE := "chart"; COLUMN_TYPE := "column";
     DIVIDER_TYPE := "divider"; HEADER_TYPE := "header";
     MARKDOWN_TYPE := "markdown"; ROW_TYPE := "row";
     TABS_TYPE := "tabs"; TAB_TYPE := "tab" |}.

Definition sample_ids : NewComponentIds :=
  {| NEW_CHART_ID := "NEW_CHART_ID"; NEW_COLUMN_ID := "NEW_COLUMN_ID";
     NEW_DIVIDER_ID := "NEW_DIVIDER_ID"; NEW_HEADER_ID := "NEW_HEADER_ID";
     NEW_MARKDOWN_ID := "NEW_MARKDOWN_ID"; NEW_ROW_ID := "NEW_ROW_ID";
     NEW_TABS_ID := "NEW_TABS_ID"; NEW_TAB_ID := "NEW_TAB_ID" |}.

End RegistrySamples.

(** * Properties *)

(** ** Response utilities *)

Module ResponseUtilsFacts.
Import ResponseUtils.

Lemma js_num_eq_true (st : option Z) (n : Z) :
  js_num_eq st n = true <-> st = Some n.
Proof.
  destruct st as [m|]; simpl.
  - rewrite Z.eqb_eq. split; congruence.
  - split; discriminate.
Qed.

Lemma js_num_eq_false (st : option Z) (n : Z) :
  js_num_eq st n = false <-> st <> Some n.
Proof.
  rewrite <- js_num_eq_true. destruct (js_num_eq st n); split; congruence.
Qed.

Lemma json_throws_iff (response : option http_response) :
  json response = Throw "no response" <-> unusable response.
Proof.
  destruct response as [[st [decode|]]|]; simpl.
  - destruct (js_num_eq st 404) eqn:E.
    + apply js_num_eq_true in E. split; auto.
    + apply js_num_eq_false in E. split; [discriminate|].
      intros [H|H]; [discriminate|contradiction].
  - split; auto.
  - split; auto.
Qed.

Lemma json_returns (r : http_response) (decode : unit -> promise jsval) :
  json_method r = Some decode ->
  http_status r <> Some 404 ->
  json (Some r) = Return (decode tt).
Proof.
  intros Hm Hs. unfold json. rewrite Hm.
  apply js_num_eq_false in Hs. now rewrite Hs.
Qed.

(** C4: [callbackHandler] calls a given callback with [(true,
    response.data)] when [response.status] is 200 and with [(false,
    response.message)] for every other status, once; status 200 with
    payload [{a:1}] gives [(true, {a:1})] and status 500 with message
    ["err"] gives [(false, "err")]. *)
Theorem callbackHandler_classifies :
  (forall (W : Type) (d m : jsval) (cb : bool -> jsval -> W -> W) (w : W),
      callbackHandler {| status := Some 200; data := d; message := m |}
        (Some cb) w = cb true d w)
  /\ (forall (W : Type) (st : option Z) (d m : jsval)
             (cb : bool -> jsval -> W -> W) (w : W),
         st <> Some 200 ->
         callbackHandler {| status := st; data := d; message := m |}
           (Some cb) w = cb false m w)
  /\ (forall (m : jsval),
         callbackHandler
           {| status := Some 200; data := JObj [("a", JNum 1)]; message := m |}
           (Some record_call) [] = [(true, JObj [("a", JNum 1)])])
  /\ (forall (d : jsval),
         callbackHandler
           {| status := Some 500; data := d; message := JStr "err" |}
           (Some record_call) [] = [(false, JStr "err")]).
Proof.
  repeat split.
  - intros W st d m cb w Hst. unfold callbackHandler; simpl.
    apply js_num_eq_false in Hst. now rewrite Hst.
Qed.

Lemma callbackHandler_classifies_witness :
  Some 404 <> Some 200
  /\ callbackHandler
       {| status := Some 404; data := JNull; message := JStr "missing" |}
       (Some record_call) [] = [(false, JStr "missing")].
Proof.
  split; [discriminate|].
  apply (proj1 (proj2 callbackHandler_classifies)). discriminate.
Defined.

(** C5: [json] throws its one generic error exactly when the response is
    absent, has no [json] method, or has status 404; a 404 response is
    refused whether or not it could be decoded; every other response
    yields the result of its [json()] call. *)
Theorem json_fails_exactly_when_unusable :
  (forall response : option http_response,
      (json response = Throw "no response" <->
       response = None
       \/ exists r, response = Some r
                    /\ (json_method r = None \/ http_status r = Some 404))
      /\ (forall msg, json response = Throw msg -> msg = "no response"))
  /\ (forall decoder : option (unit -> promise jsval),
         json (Some {| http_status := Some 404; json_method := decoder |})
         = Throw "no response")
  /\ (forall (r : http_response) (decode : unit -> promise jsval),
         json_method r = Some decode ->
         http_status r <> Some 404 ->
         json (Some r) = Return (decode tt)).
Proof.
  split; [|split].
  - intros response. split.
    + rewrite json_throws_iff. destruct response as [r|]; simpl.
      * split.
        -- intros H. right. exists r. auto.
        -- intros [H|[r' [Hr H]]]; [discriminate|]. now inversion Hr; subst.
      * split; auto.
    + intros msg. destruct response as [[st [decode|]]|]; simpl;
        try destruct (js_num_eq st 404); congruence.
  - intros [decode|]; reflexivity.
  - apply json_returns.
Qed.

Lemma json_fails_exactly_when_unusable_witness :
  let decode := fun _ : unit => Fulfilled (JObj [("a", JNum 1)]) in
  let r := {| http_status := Some 200; json_method := Some decode |} in
  json_method r = Some decode
  /\ http_status r <> Some 404
  /\ json (Some r) = Return (Fulfilled (JObj [("a", JNum 1)])).
Proof.
  intros decode r. split; [reflexivity|]. split; [discriminate|].
  apply (proj2 (proj2 json_fails_exactly_when_unusable) r decode);
    [reflexivity|discriminate].
Defined.

(** C10: a response that is present, has a [json] method and has any
    status other than 404 (500 for one, or none at all) is not refused:
    [json] returns the result of its [json()] call.  404 is the only
    status [json] refuses. *)
Theorem json_rejects_only_404 :
  forall (r : http_response) (decode : unit -> promise jsval),
    json_method r = Some decode ->
    (http_status r <> Some 404 -> json (Some r) = Return (decode tt))
    /\ (forall msg, json (Some r) = Throw msg -> http_status r = Some 404)
    /\ (http_status r = Some 500 -> json (Some r) = Return (decode tt)).
Proof.
  intros r decode Hm. split; [|split].
  - now apply json_returns.
  - intros msg H. destruct (js_num_eq (http_status r) 404) eqn:E.
    + now apply js_num_eq_true in E.
    + apply js_num_eq_false in E.
      rewrite (json_returns r decode Hm E) in H. discriminate.
  - intros H. apply json_returns; [assumption|]. rewrite H. discriminate.
Qed.

Lemma json_rejects_only_404_witness :
  let decode := fun _ : unit => Rejected (JStr "Internal Server Error") in
  let r := {| http_status := Some 500; json_method := Some decode |} in
  json_method r = Some decode
  /\ http_status r <> Some 404
  /\ json (Some r) = Return (Rejected (JStr "Internal Server Error")).
Proof.
  intros decode r. split; [reflexivity|]. split; [discriminate|].
  apply (proj1 (json_rejects_only_404 r decode eq_refl)). discriminate.
Defined.

End ResponseUtilsFacts.

(** ** Component type registry *)

Module RegistryFacts.
Import Registry.

Lemma define_properties_other (l : list (string * string))
    (m : gmap string string) (k : string) :
  ~ In k (map fst l) -> define_properties l m !! k = m !! k.
Proof.
  revert m. induction l as [|[k0 v0] l IH]; intros m Hk; simpl in *.
  - reflexivity.
  - unfold define_properties in *. simpl.
    rewrite IH by tauto. apply lookup_insert_ne. tauto.
Qed.

Lemma define_properties_bound (l : list (string * string))
    (m : gmap string string) (k : string) :
  In k (map fst l) ->
  exists v, In (k, v) l /\ define_properties l m !! k = Some v.
Proof.
  revert m. induction l as [|[k0 v0] l IH]; intros m Hk; simpl in *.
  - contradiction.
  - destruct (in_dec string_dec k (map fst l)) as [Hin|Hout].
    + destruct (IH (<[k0:=v0]> m) Hin) as [v [Hv Hl]].
      exists v. split; [now right|exact Hl].
    + destruct Hk as [->|Hk]; [|contradiction].
      exists v0. split; [now left|].
      unfold define_properties; simpl.
      fold (define_properties l (<[k:=v0]> m)).
      rewrite define_properties_other by assumption.
      apply lookup_insert_eq.
Qed.

Lemma NoDup_keys_functional (l : list (string * string)) (k v v' : string) :
  List.NoDup (map fst l) -> In (k, v) l -> In (k, v') l -> v = v'.
Proof.
  induction l as [|[k0 v0] l IH]; simpl; intros Hnd Hv Hv'.
  - contradiction.
  - inversion Hnd as [|? ? Hnotin Hnd']; subst.
    destruct Hv as [Hv|Hv], Hv' as [Hv'|Hv'].
    + congruence.
    + inversion Hv; subst. exfalso. apply Hnotin.
      change k with (fst (k, v')). now apply in_map.
    + inversion Hv'; subst. exfalso. apply Hnotin.
      change k with (fst (k, v)). now apply in_map.
    + now apply IH.
Qed.

Lemma inherits_spec (key : string) (names : list string) :
  existsb (String.eqb key) names = true <-> In key names.
Proof.
  rewrite existsb_exists. split.
  - intros [x [Hx E]]. apply String.eqb_eq in E. now subst.
  - intros H. exists key. split; [exact H|apply String.eqb_refl].
Qed.

Lemma read_property_own (obj : gmap string string) (key value : string) :
  obj !! key = Some value -> read_property obj key = Own value.
Proof. unfold read_property. now intros ->. Qed.

Lemma read_property_undefined (obj : gmap string string) (key : string) :
  obj !! key = None -> ~ In key Object_prototype_names ->
  read_property obj key = Undefined.
Proof.
  unfold read_property. intros -> H.
  destruct (existsb (String.eqb key) Object_prototype_names) eqn:E;
    [|reflexivity].
  apply inherits_spec in E. contradiction.
Qed.

Lemma read_property_inherited (obj : gmap string string) (key : string) :
  obj !! key = None -> In key Object_prototype_names ->
  read_property obj key = Inherited key.
Proof.
  unfold read_property. intros -> H.
  apply inherits_spec in H. now rewrite H.
Qed.

(** C7, as the code has it: looking up an id that the registry does not
    list and that is not the name of a member of [Object.prototype] gives
    [undefined], an ordinary value and not an exception; looking up a
    listed id gives a type tag the literal binds to it, which is the tag
    written next to it whenever the eight ids are pairwise different;
    looking up an unlisted name of a member of [Object.prototype] gives
    that inherited member. *)
Theorem lookup_unknown_or_type_tag
    (types : ComponentTypes) (ids : NewComponentIds) :
  (forall id : string,
      ~ In id (map fst entries) -> ~ In id Object_prototype_names ->
      type_of_id id = Undefined)
  /\ (forall id : string,
         In id (map fst entries) ->
         exists ty, In (id, ty) entries /\ type_of_id id = Own ty)
  /\ (List.NoDup (map fst entries) ->
      forall id ty : string,
        In (id, ty) entries -> type_of_id id = Own ty)
  /\ (forall id : string,
         ~ In id (map fst entries) -> In id Object_prototype_names ->
         type_of_id id = Inherited id).
Proof.
  unfold type_of_id, newComponentIdToType.
  split; [|split; [|split]].
  - intros id Hid Hproto. apply read_property_undefined; [|exact Hproto].
    rewrite define_properties_other by assumption. apply lookup_empty.
  - intros id Hid.
    destruct (define_properties_bound entries ∅ id Hid) as [ty [Hty Hl]].
    exists ty. split; [exact Hty|]. now apply read_property_own.
  - intros Hnd id ty Hin.
    destruct (define_properties_bound entries ∅ id) as [v [Hv Hl]].
    + change id with (fst (id, ty)). now apply in_map.
    + rewrite (read_property_own _ _ _ Hl). f_equal.
      eapply NoDup_keys_functional; eauto.
  - intros id Hid Hproto. apply read_property_inherited; [|exact Hproto].
    rewrite define_properties_other by assumption. apply lookup_empty.
Qed.

Lemma lookup_unknown_or_type_tag_witness :
  @type_of_id RegistrySamples.sample_types RegistrySamples.sample_ids
    "NEW_ROW_ID" = Own "row"
  /\ @type_of_id RegistrySamples.sample_types RegistrySamples.sample_ids
       "CHART-7" = Undefined.
Proof.
  destruct (lookup_unknown_or_type_tag RegistrySamples.sample_types
              RegistrySamples.sample_ids) as [Hnone [_ [Hsome _]]].
  split.
  - apply Hsome.
    + vm_compute. repeat constructor; simpl; intuition discriminate.
    + vm_compute. tauto.
  - apply Hnone; vm_compute; intuition discriminate.
Defined.

(** C7, as the claim states it, fails: ["constructor"] is not an id of the
    registry, and looking it up gives the member every object inherits,
    not [undefined]. *)
Lemma lookup_inherited_not_unknown :
  ~ (forall id : string,
        ~ In id (map fst (@entries RegistrySamples.sample_types
                            RegistrySamples.sample_ids)) ->
        @type_of_id RegistrySamples.sample_types RegistrySamples.sample_ids id
        = Undefined).
Proof.
  intros H. specialize (H "constructor").
  assert (@type_of_id RegistrySamples.sample_types RegistrySamples.sample_ids
            "constructor" = Inherited "constructor") as E
    by (vm_compute; reflexivity).
  rewrite E in H. discriminate H.
  vm_compute. intuition discriminate.
Qed.

End RegistryFacts.

(** ** Dashboard header *)

Module HeaderFacts.
Import Header.
Local Open Scope list_scope.

(** *** Rendering *)

(** The buttons of the rendered header, spelled out. *)
Lemma buttons_render (version : string) (p : props) (s : state) :
  buttons (render version p s) =
  if dash_save_perm (dashboardInfo p) then
    (if editMode p then [(props_onUndo, Some (undoLength p <? 1))] else [])
    ++ (if editMode p then [(props_onRedo, Some (redoLength p <? 1))] else [])
    ++ (if editMode p then [(props_toggleBuilderPane, None)] else [])
    ++ (if editMode p && (hasUnsavedChanges p || isV2Preview p)
        then [(this_overwriteDashboard, None)] else [])
    ++ (if negb (editMode p) && isV2Preview p
        then [(this_toggleEditMode, Some (negb (dash_edit_perm (dashboardInfo p))))]
        else [])
    ++ (if negb (editMode p) && negb (isV2Preview p) && negb (hasUnsavedChanges p)
        then [(this_toggleEditMode, Some (negb (dash_edit_perm (dashboardInfo p))))]
        else [])
    ++ (if editMode p && negb (isV2Preview p) && negb (hasUnsavedChanges p)
        then [(this_toggleEditMode, Some (negb (dash_edit_perm (dashboardInfo p))))]
        else [])
  else [].
Proof.
  unfold render.
  destruct (dash_save_perm (dashboardInfo p)), (editMode p),
    (hasUnsavedChanges p), (isV2Preview p), (String.eqb version "v2"),
    (showV2PreviewModal s); reflexivity.
Qed.

(** C6: whenever the header renders an undo (redo) button, which it
    does in edit mode for a principal with [dash_save_perm], the button's
    [disabled] attribute is [undoLength < 1] ([redoLength < 1]) and nothing
    else; the button wired to [overwriteDashboard] is rendered only for a
    principal with [dash_save_perm], and whether it is rendered does not
    depend on [dash_edit_perm], which instead disables the buttons that
    toggle the edit mode. *)
Theorem controls_enablement (version : string) (p : props) (s : state) :
  (forall d, In (props_onUndo, d) (buttons (render version p s)) ->
             d = Some (undoLength p <? 1))
  /\ (forall d, In (props_onRedo, d) (buttons (render version p s)) ->
                d = Some (redoLength p <? 1))
  /\ offers props_onUndo (render version p s)
     = dash_save_perm (dashboardInfo p) && editMode p
  /\ offers props_onRedo (render version p s)
     = dash_save_perm (dashboardInfo p) && editMode p
  /\ (offers this_overwriteDashboard (render version p s) = true ->
      dash_save_perm (dashboardInfo p) = true)
  /\ (forall canEdit : bool,
         offers this_overwriteDashboard
           (render version (with_dash_edit_perm canEdit p) s)
         = offers this_overwriteDashboard (render version p s))
  /\ (forall d, In (this_toggleEditMode, d) (buttons (render version p s)) ->
                d = Some (negb (dash_edit_perm (dashboardInfo p)))).
Proof.
  unfold offers. setoid_rewrite buttons_render. simpl.
  destruct (dash_save_perm (dashboardInfo p)), (editMode p),
    (hasUnsavedChanges p), (isV2Preview p); simpl;
    intuition congruence.
Qed.

Lemma controls_enablement_witness :
  In (props_onUndo, Some true)
     (buttons (render "v2" sample_props (initial_state sample_props)))
  /\ Some true = Some (undoLength sample_props <? 1).
Proof.
  split; [vm_compute; auto|].
  apply (proj1 (controls_enablement "v2" sample_props
                  (initial_state sample_props))).
  vm_compute; auto.
Defined.

(** *** Frame properties of the methods *)

Section Session.
Context {imports : Imports}.

Lemma fired_frame (l : list timer) (w : world) :
  let w' := fold_left (fun w tm => run_timer (callback tm) w) l w in
  this_props w' = this_props w /\ ctrlYTimeout w' = ctrlYTimeout w
  /\ ctrlZTimeout w' = ctrlZTimeout w /\ window w' = window w
  /\ redux w' = redux w /\ calls w' = calls w
  /\ didNotifyMaxUndoHistoryToast (this_state w')
     = didNotifyMaxUndoHistoryToast (this_state w)
  /\ emphasizeUndo (this_state w')
     = (if existsb (runs emphasizeUndo_off) l
        then false else emphasizeUndo (this_state w))
  /\ truthy (emphasizeRedo (this_state w'))
     = (if existsb (runs emphasizeRedo_off) l
        then false else truthy (emphasizeRedo (this_state w))).
Proof.
  revert w. induction l as [|tm l IH]; intros w; simpl.
  - repeat split.
  - specialize (IH (run_timer (callback tm) w)). simpl in IH.
    destruct IH as (-> & -> & -> & -> & -> & -> & -> & -> & ->).
    unfold runs.
    destruct (callback tm); simpl; repeat split;
      destruct (existsb _ l); reflexivity.
Qed.

Lemma elapse_frame (ms : N) (w : world) :
  this_props (elapse ms w) = this_props w
  /\ ctrlYTimeout (elapse ms w) = ctrlYTimeout w
  /\ ctrlZTimeout (elapse ms w) = ctrlZTimeout w
  /\ redux (elapse ms w) = redux w
  /\ calls (elapse ms w) = calls w
  /\ didNotifyMaxUndoHistoryToast (this_state (elapse ms w))
     = didNotifyMaxUndoHistoryToast (this_state w).
Proof.
  unfold elapse.
  match goal with
  | |- context [fold_left ?f ?l ?w0] =>
      destruct (fired_frame l w0) as (-> & -> & -> & _ & -> & -> & -> & _)
  end.
  repeat split.
Qed.

Lemma count_snoc {A : Type} (f : A -> bool) (l : list A) (x : A) :
  length (List.filter f (l ++ [x]))
  = (length (List.filter f l) + (if f x then 1 else 0))%nat.
Proof.
  rewrite List.filter_app, List.length_app. simpl. now destruct (f x).
Qed.

Lemma toast_count_invoke (c : call) (w : world) :
  toast_count (invoke c w)
  = (toast_count w + (if is_toast c then 1 else 0))%nat.
Proof. apply count_snoc. Qed.

Lemma save_count_invoke (c : call) (w : world) :
  save_count (invoke c w)
  = (save_count w + (if is_save c then 1 else 0))%nat.
Proof. apply count_snoc. Qed.

Ltac unfold_handlers :=
  unfold handleCtrlZ, handleCtrlY, toggleEditMode, overwriteDashboard,
    toggleShowV2PreviewModal, forceRefresh, handleChangeText, receive,
    componentWillReceiveProps.

Ltac case_if :=
  match goal with
  | |- context [if ?c then _ else _] => destruct c eqn:?
  | |- context [match ?o with Some _ => _ | None => _ end] => destruct o eqn:?
  | |- context [match ?l with [] => _ | _ :: _ => _ end] => destruct l eqn:?
  end.

Lemma step_didNotify (w : world) (e : event) :
  didNotifyMaxUndoHistoryToast (this_state (step w e))
  = didNotifyMaxUndoHistoryToast (this_state w) || at_limit e.
Proof.
  destruct e as [nextProps|ms|h|nextText]; simpl.
  - unfold_handlers. simpl.
    destruct (UNDO_LIMIT - undoLength nextProps <=? 0),
      (didNotifyMaxUndoHistoryToast (this_state w)) eqn:E; simpl;
      case_if; simpl; congruence.
  - destruct (elapse_frame ms w) as (_ & _ & _ & _ & _ & ->).
    now rewrite orb_false_r.
  - destruct h; simpl; unfold_handlers; repeat (case_if; simpl);
      now rewrite orb_false_r.
  - unfold_handlers. case_if; simpl; now rewrite orb_false_r.
Qed.

Lemma step_toast_count (w : world) (e : event) :
  toast_count (step w e)
  = (toast_count w
     + (if at_limit e && negb (didNotifyMaxUndoHistoryToast (this_state w))
        then 1 else 0))%nat.
Proof.
  destruct e as [nextProps|ms|h|nextText]; simpl.
  - unfold_handlers. unfold toast_count. simpl.
    destruct (UNDO_LIMIT - undoLength nextProps <=? 0),
      (didNotifyMaxUndoHistoryToast (this_state w)) eqn:E; simpl;
      case_if; simpl; rewrite ?count_snoc; simpl; lia.
  - unfold toast_count.
    destruct (elapse_frame ms w) as (_ & _ & _ & _ & -> & _). lia.
  - unfold toast_count.
    destruct h; simpl; unfold_handlers; repeat (case_if; simpl);
      rewrite ?count_snoc; simpl; lia.
  - unfold toast_count. unfold_handlers.
    case_if; simpl; rewrite ?count_snoc; simpl; lia.
Qed.

Lemma step_save_count (w : world) (e : event) :
  save_count (step w e)
  = (save_count w
     + (match e with Fire this_overwriteDashboard => 1 | _ => 0 end))%nat.
Proof.
  destruct e as [nextProps|ms|h|nextText]; simpl.
  - unfold_handlers. unfold save_count. simpl.
    repeat (case_if; simpl); rewrite ?count_snoc; simpl; lia.
  - unfold save_count.
    destruct (elapse_frame ms w) as (_ & _ & _ & _ & -> & _). lia.
  - unfold save_count.
    destruct h; simpl; unfold_handlers; repeat (case_if; simpl);
      rewrite ?count_snoc; simpl; lia.
  - unfold save_count. unfold_handlers.
    case_if; simpl; rewrite ?count_snoc; simpl; lia.
Qed.

Lemma step_flag_sticky (w : world) (e : event) :
  store_maxUndoHistoryExceeded (redux w) = true ->
  store_maxUndoHistoryExceeded (redux (step w e)) = true.
Proof.
  intros H. destruct e as [nextProps|ms|h|nextText]; simpl.
  - unfold_handlers. simpl. repeat (case_if; simpl); auto.
  - destruct (elapse_frame ms w) as (_ & _ & _ & -> & _). exact H.
  - destruct h; simpl; unfold_handlers; unfold dispatch;
      repeat (case_if; simpl); auto.
  - unfold_handlers. case_if; simpl; auto.
Qed.

Lemma step_this_props (w : world) (e : event) :
  this_props (step w e)
  = match e with
    | Receive nextProps => connect (redux w) nextProps
    | _ => this_props w
    end.
Proof.
  destruct e as [nextProps|ms|h|nextText]; simpl.
  - reflexivity.
  - now destruct (elapse_frame ms w) as (-> & _).
  - destruct h; simpl; unfold_handlers; repeat (case_if; simpl); reflexivity.
  - unfold_handlers. case_if; reflexivity.
Qed.

Lemma step_flag_seen_is_stored (w : world) (e : event) :
  flag_seen_is_stored w -> flag_seen_is_stored (step w e).
Proof.
  unfold flag_seen_is_stored. intros H Hseen.
  apply step_flag_sticky. rewrite step_this_props in Hseen.
  destruct e; auto.
Qed.

Lemma receive_over_limit (w : world) (nextProps : props) :
  flag_seen_is_stored w ->
  undoLength nextProps > UNDO_LIMIT ->
  store_maxUndoHistoryExceeded (redux (step w (Receive nextProps))) = true.
Proof.
  unfold flag_seen_is_stored. intros Hs Hn.
  destruct (maxUndoHistoryExceeded (this_props w)) eqn:E.
  - apply step_flag_sticky. now apply Hs.
  - simpl. unfold_handlers. simpl.
    assert ((undoLength nextProps >? UNDO_LIMIT) = true) as -> by lia.
    destruct (UNDO_LIMIT - undoLength nextProps <=? 0),
      (didNotifyMaxUndoHistoryToast (this_state w)); simpl;
      rewrite E; reflexivity.
Qed.

Lemma step_count_setMax (w : world) (e : event) :
  HeaderViews.count_calls HeaderViews.is_setMaxUndoHistoryExceeded (step w e)
  = (HeaderViews.count_calls HeaderViews.is_setMaxUndoHistoryExceeded w
     + (match e with
        | Receive nextProps =>
            if (undoLength nextProps >? UNDO_LIMIT)
               && negb (maxUndoHistoryExceeded (this_props w))
            then 1 else 0
        | _ => 0
        end))%nat.
Proof.
  unfold HeaderViews.count_calls.
  destruct e as [nextProps|ms|h|nextText]; simpl.
  - unfold_handlers. simpl.
    destruct (UNDO_LIMIT - undoLength nextProps <=? 0),
      (didNotifyMaxUndoHistoryToast (this_state w)); simpl;
      case_if; simpl; rewrite ?count_snoc; simpl; lia.
  - destruct (elapse_frame ms w) as (_ & _ & _ & _ & -> & _). lia.
  - destruct h; simpl; unfold_handlers; repeat (case_if; simpl);
      rewrite ?count_snoc; simpl; lia.
  - unfold_handlers. case_if; simpl; rewrite ?count_snoc; simpl; lia.
Qed.

Lemma step_history (w : world) (e : event) :
  undoes_or_redoes e = false ->
  past (redux (step w e)) = past (redux w)
  /\ present (redux (step w e)) = present (redux w)
  /\ future (redux (step w e)) = future (redux w).
Proof.
  intros He. destruct e as [nextProps|ms|h|nextText]; simpl.
  - unfold_handlers. simpl. repeat (case_if; simpl); auto.
  - destruct (elapse_frame ms w) as (_ & _ & _ & -> & _). auto.
  - destruct h; try discriminate He; simpl; unfold_handlers; simpl; auto.
  - unfold_handlers. case_if; simpl; auto.
Qed.

Lemma step_store_editMode (w : world) (e : event) :
  toggles_edit_mode e = false ->
  store_editMode (redux (step w e)) = store_editMode (redux w).
Proof.
  intros He. destruct e as [nextProps|ms|h|nextText]; simpl.
  - unfold_handlers. simpl. repeat (case_if; simpl); auto.
  - now destruct (elapse_frame ms w) as (_ & _ & _ & -> & _).
  - destruct h; try discriminate He; simpl; unfold_handlers; unfold dispatch;
      simpl; repeat (case_if; simpl); auto.
  - unfold_handlers. case_if; simpl; auto.
Qed.

(** *** Timers *)

Lemma filter_comm {A : Type} (f g : A -> bool) (l : list A) :
  List.filter f (List.filter g l) = List.filter g (List.filter f l).
Proof.
  induction l as [|x l IH]; simpl; [reflexivity|].
  destruct (f x) eqn:Ef, (g x) eqn:Eg; simpl; rewrite ?Ef, ?Eg, IH;
    reflexivity.
Qed.

Lemma existsb_filter_comm {A : Type} (f g : A -> bool) (l : list A) :
  existsb f (List.filter g l) = existsb g (List.filter f l).
Proof.
  induction l as [|x l IH]; simpl; [reflexivity|].
  destruct (f x) eqn:Ef, (g x) eqn:Eg; simpl; rewrite ?Ef, ?Eg, IH;
    reflexivity.
Qed.

Lemma pulse_ok_elapse (cb : timer_callback) (h : option positive)
    (flag : bool) (d : option N) (b : browser) (ms : N) :
  pulse_ok cb h flag d b ->
  pulse_ok cb h
    (if existsb (runs cb)
          (List.filter (is_due (clock b + Z.of_N ms)) (timers b))
     then false else flag)
    (match d with Some d => Some (d + ms)%N | None => None end)
    (elapsed ms b).
Proof.
  unfold pulse_ok, armed, elapsed; simpl.
  rewrite existsb_filter_comm, filter_comm.
  destruct d as [d|]; simpl.
  - intros (i & Hh & Hi & H). exists i. split; [exact Hh|]. split; [exact Hi|].
    destruct (N.ltb_spec d 100) as [Hd|Hd].
    + destruct H as [-> ->]. simpl. unfold is_due; simpl.
      destruct (N.ltb_spec (d + ms) 100) as [Hd'|Hd'];
        destruct (Z.leb_spec (clock b - Z.of_N d + 100) (clock b + Z.of_N ms));
        simpl; try lia.
      * split; [reflexivity|].
        replace (clock b + Z.of_N ms - Z.of_N (d + ms) + 100)
          with (clock b - Z.of_N d + 100) by lia.
        reflexivity.
      * split; reflexivity.
    + destruct H as [-> ->]. simpl.
      destruct (N.ltb_spec (d + ms) 100); [lia|]. split; reflexivity.
  - intros (-> & -> & ->). simpl. repeat split.
Qed.

Lemma runs_refl (cb : timer_callback) (i : positive) (t : Z) :
  runs cb {| handle := i; fires_at := t; callback := cb |} = true.
Proof. now destruct cb. Qed.

Lemma armed_rearm (cb cb' : timer_callback) (h : option positive)
    (b : browser) :
  armed cb (rearm cb' h b)
  = (match h with
     | Some i => List.filter (fun tm => negb (Pos.eqb (handle tm) i)) (armed cb b)
     | None => armed cb b
     end)
    ++ (if timer_callback_eqb cb' cb
        then [{| handle := next_handle b; fires_at := clock b + 100;
                 callback := cb' |}]
        else []).
Proof.
  unfold armed, rearm. destruct h as [i|]; simpl;
    rewrite List.filter_app; simpl; unfold runs at 2; simpl;
    rewrite 1?filter_comm; destruct (timer_callback_eqb cb' cb); reflexivity.
Qed.

Lemma pulse_ok_arm (cb : timer_callback) (h : option positive)
    (flag : bool) (d : option N) (b : browser) :
  pulse_ok cb h flag d b ->
  pulse_ok cb (Some (next_handle b)) true (Some 0%N) (rearm cb h b).
Proof.
  intros H. unfold pulse_ok. exists (next_handle b).
  split; [reflexivity|]. split.
  { unfold rearm. destruct h; simpl; lia. }
  change (0 <? 100)%N with true. cbv iota. split; [reflexivity|].
  rewrite armed_rearm.
  assert (timer_callback_eqb cb cb = true) as -> by now destruct cb.
  assert (clock (rearm cb h b) = clock b) as ->
    by (unfold rearm; now destruct h).
  change (Z.of_N 0) with 0.
  replace (clock b - 0 + 100) with (clock b + 100) by lia.
  match goal with |- ?l ++ _ = _ => assert (l = []) as -> end;
    [|reflexivity].
  unfold pulse_ok in H. destruct d as [d|].
  - destruct H as (i & -> & _ & H).
    destruct (d <? 100)%N; destruct H as [_ ->]; simpl;
      rewrite ?Pos.eqb_refl; reflexivity.
  - destruct H as (-> & _ & ->). reflexivity.
Qed.

Lemma pulse_ok_arm_other (cb cb' : timer_callback) (h h' : option positive)
    (flag : bool) (d : option N) (b : browser) :
  timer_callback_eqb cb' cb = false ->
  (forall i j, h = Some i -> h' = Some j -> i <> j) ->
  pulse_ok cb h flag d b ->
  pulse_ok cb h flag d (rearm cb' h' b).
Proof.
  intros Hcb Hne H. unfold pulse_ok in *.
  assert (clock (rearm cb' h' b) = clock b) as Hc
    by (unfold rearm; now destruct h').
  assert (next_handle (rearm cb' h' b) = Pos.succ (next_handle b)) as Hn
    by (unfold rearm; now destruct h').
  rewrite armed_rearm, Hcb, app_nil_r, Hc, Hn.
  destruct d as [d|].
  - destruct H as (i & -> & Hi & H). exists i.
    split; [reflexivity|]. split; [lia|].
    destruct (d <? 100)%N; destruct H as [-> ->]; split; try reflexivity;
      destruct h' as [j|]; simpl; try reflexivity.
    destruct (Pos.eqb_spec i j) as [->|_]; [|reflexivity].
    now destruct (Hne j j).
  - destruct H as (-> & -> & ->). repeat split.
    now destruct h'.
Qed.

Lemma elapse_window (ms : N) (w : world) :
  window (elapse ms w) = elapsed ms (window w)
  /\ emphasizeUndo (this_state (elapse ms w))
     = (if existsb (runs emphasizeUndo_off)
             (List.filter (is_due (clock (window w) + Z.of_N ms))
                (timers (window w)))
        then false else emphasizeUndo (this_state w))
  /\ truthy (emphasizeRedo (this_state (elapse ms w)))
     = (if existsb (runs emphasizeRedo_off)
             (List.filter (is_due (clock (window w) + Z.of_N ms))
                (timers (window w)))
        then false else truthy (emphasizeRedo (this_state w))).
Proof.
  unfold elapse.
  match goal with
  | |- context [fold_left ?f ?l ?w0] =>
      destruct (fired_frame l w0) as (_ & _ & _ & -> & _ & _ & _ & -> & ->)
  end.
  repeat split.
Qed.

Lemma handleCtrlZ_fields (w : world) :
  window (handleCtrlZ w) = rearm emphasizeUndo_off (ctrlZTimeout w) (window w)
  /\ ctrlZTimeout (handleCtrlZ w) = Some (next_handle (window w))
  /\ ctrlYTimeout (handleCtrlZ w) = ctrlYTimeout w
  /\ emphasizeUndo (this_state (handleCtrlZ w)) = true
  /\ emphasizeRedo (this_state (handleCtrlZ w)) = emphasizeRedo (this_state w).
Proof.
  unfold handleCtrlZ, rearm; simpl. destruct (ctrlZTimeout w); simpl;
    repeat split.
Qed.

Lemma handleCtrlY_fields (w : world) :
  window (handleCtrlY w) = rearm emphasizeRedo_off (ctrlYTimeout w) (window w)
  /\ ctrlYTimeout (handleCtrlY w) = Some (next_handle (window w))
  /\ ctrlZTimeout (handleCtrlY w) = ctrlZTimeout w
  /\ truthy (emphasizeRedo (this_state (handleCtrlY w))) = true
  /\ emphasizeUndo (this_state (handleCtrlY w)) = emphasizeUndo (this_state w).
Proof.
  unfold handleCtrlY, rearm; simpl. destruct (ctrlYTimeout w); simpl;
    repeat split.
Qed.

Lemma pulse_ok_handle (cb : timer_callback) (h : option positive)
    (flag : bool) (d : option N) (b : browser) (i : positive) :
  pulse_ok cb h flag d b -> h = Some i -> (i < next_handle b)%positive.
Proof.
  unfold pulse_ok. destruct d.
  - intros (j & -> & Hj & _) [= ->]. exact Hj.
  - intros (-> & _) [=].
Qed.

Lemma step_pulses_ok (dZ dY : option N) (w : world) (e : event) :
  pulses_ok dZ dY w ->
  pulses_ok (since_step this_handleCtrlZ dZ e)
    (since_step this_handleCtrlY dY e) (step w e).
Proof.
  unfold pulses_ok. intros (HZ & HY & Hne).
  assert (window (step w e) = window w ->
          ctrlZTimeout (step w e) = ctrlZTimeout w ->
          ctrlYTimeout (step w e) = ctrlYTimeout w ->
          emphasizeUndo (this_state (step w e)) = emphasizeUndo (this_state w) ->
          emphasizeRedo (this_state (step w e)) = emphasizeRedo (this_state w) ->
          since_step this_handleCtrlZ dZ e = dZ ->
          since_step this_handleCtrlY dY e = dY ->
          pulse_ok emphasizeUndo_off (ctrlZTimeout (step w e))
            (emphasizeUndo (this_state (step w e)))
            (since_step this_handleCtrlZ dZ e) (window (step w e))
          /\ pulse_ok emphasizeRedo_off (ctrlYTimeout (step w e))
               (truthy (emphasizeRedo (this_state (step w e))))
               (since_step this_handleCtrlY dY e) (window (step w e))
          /\ (forall a b, ctrlZTimeout (step w e) = Some a ->
                          ctrlYTimeout (step w e) = Some b -> a <> b))
    as Frame.
  { intros -> -> -> -> -> -> ->. auto. }
  destruct e as [nextProps|ms|h|nextText].
  - apply Frame; simpl; unfold_handlers; simpl;
      repeat (case_if; simpl); reflexivity.
  - clear Frame. cbv [step since_step].
    destruct (elapse_frame ms w) as (_ & -> & -> & _).
    destruct (elapse_window ms w) as (-> & -> & ->).
    split; [|split].
    + apply (pulse_ok_elapse _ _ _ _ _ ms) in HZ. destruct dZ; exact HZ.
    + apply (pulse_ok_elapse _ _ _ _ _ ms) in HY. destruct dY; exact HY.
    + exact Hne.
  - destruct h;
      try (apply Frame; simpl; unfold_handlers; simpl;
           repeat (case_if; simpl); reflexivity);
      clear Frame; cbv [step perform since_step handler_eqb].
    + destruct (handleCtrlZ_fields w) as (-> & -> & -> & -> & ->).
      split; [|split].
      * eapply pulse_ok_arm, HZ.
      * apply pulse_ok_arm_other; [reflexivity| |exact HY].
        intros i j Hi Hj E. subst. now apply (Hne j j).
      * intros a b [= <-] Hb E. subst.
        pose proof (pulse_ok_handle _ _ _ _ _ _ HY Hb). lia.
    + destruct (handleCtrlY_fields w) as (-> & -> & -> & -> & ->).
      split; [|split].
      * apply pulse_ok_arm_other; [reflexivity| |exact HZ].
        intros i j Hi Hj E. subst. now apply (Hne j j).
      * eapply pulse_ok_arm, HY.
      * intros a b Ha [= <-] E. subst.
        pose proof (pulse_ok_handle _ _ _ _ _ _ HZ Ha). lia.
  - apply Frame; simpl; unfold_handlers; simpl;
      repeat (case_if; simpl); reflexivity.
Qed.

Lemma run_pulses_ok (es : list event) :
  forall (dZ dY : option N) (w : world),
    pulses_ok dZ dY w ->
    pulses_ok (fold_left (since_step this_handleCtrlZ) es dZ)
      (fold_left (since_step this_handleCtrlY) es dY) (run w es).
Proof.
  induction es as [|e es IH]; intros dZ dY w H; simpl.
  - exact H.
  - apply IH, step_pulses_ok, H.
Qed.

Lemma mount_pulses_ok (p : props) (s : store) :
  pulses_ok None None (mount p s).
Proof. unfold pulses_ok, pulse_ok; simpl. repeat split. discriminate. Qed.

Lemma pulse_ok_reads (cb : timer_callback) (h : option positive)
    (flag : bool) (d : option N) (b : browser) :
  pulse_ok cb h flag d b ->
  flag = match d with Some d => (d <? 100)%N | None => false end
  /\ (length (armed cb b) <= 1)%nat.
Proof.
  unfold pulse_ok. destruct d as [d|].
  - intros (i & _ & _ & H). destruct (d <? 100)%N;
      destruct H as [-> ->]; simpl; split; auto.
  - intros (_ & -> & ->). simpl; split; auto.
Qed.

Lemma pulse_ok_fresh (cb : timer_callback) (h : option positive)
    (flag : bool) (b : browser) :
  pulse_ok cb h flag (Some 0%N) b ->
  exists i : positive,
    armed cb b = [{| handle := i; fires_at := clock b + 100; callback := cb |}].
Proof.
  unfold pulse_ok. change (0 <? 100)%N with true. cbv iota.
  change (Z.of_N 0) with 0.
  intros (i & _ & _ & _ & ->). exists i.
  replace (clock b - 0 + 100) with (clock b + 100) by lia. reflexivity.
Qed.

Lemma since_last_snoc (h : handler) (es : list event) :
  since_last h (es ++ [Fire h]) = Some 0%N.
Proof.
  unfold since_last. rewrite fold_left_app. simpl. now destruct h.
Qed.

(** C3: time being counted in milliseconds and a timer running when it is
    due, after any sequence of events the undo (redo) emphasis is on exactly
    when [handleCtrlZ] ([handleCtrlY]) has run and fewer than 100 ms have
    passed since its latest run; at most one timer per control is ever
    armed, and right after a run of the handler that one timer is due
    100 ms later: a repeated run clears the outstanding timer and starts
    the window again. *)
Theorem emphasis_pulse_debounced (p : props) (s : store) (es : list event) :
  emphasizeUndo (this_state (run (mount p s) es))
  = in_pulse_window this_handleCtrlZ es
  /\ truthy (emphasizeRedo (this_state (run (mount p s) es)))
     = in_pulse_window this_handleCtrlY es
  /\ (length (armed emphasizeUndo_off (window (run (mount p s) es))) <= 1)%nat
  /\ (length (armed emphasizeRedo_off (window (run (mount p s) es))) <= 1)%nat
  /\ (exists i : positive,
         armed emphasizeUndo_off
           (window (run (mount p s) (es ++ [Fire this_handleCtrlZ])))
         = [{| handle := i;
               fires_at :=
                 clock (window (run (mount p s) (es ++ [Fire this_handleCtrlZ])))
                 + 100;
               callback := emphasizeUndo_off |}])
  /\ (exists i : positive,
         armed emphasizeRedo_off
           (window (run (mount p s) (es ++ [Fire this_handleCtrlY])))
         = [{| handle := i;
               fires_at :=
                 clock (window (run (mount p s) (es ++ [Fire this_handleCtrlY])))
                 + 100;
               callback := emphasizeRedo_off |}]).
Proof.
  destruct (run_pulses_ok es None None _ (mount_pulses_ok p s))
    as (HZ & HY & _).
  apply pulse_ok_reads in HZ, HY.
  unfold in_pulse_window, since_last.
  repeat (split; [tauto|]). split.
  - destruct (run_pulses_ok (es ++ [Fire this_handleCtrlZ]) None None _
                (mount_pulses_ok p s)) as (H & _).
    fold (since_last this_handleCtrlZ (es ++ [Fire this_handleCtrlZ])) in H.
    rewrite since_last_snoc in H. eapply pulse_ok_fresh, H.
  - destruct (run_pulses_ok (es ++ [Fire this_handleCtrlY]) None None _
                (mount_pulses_ok p s)) as (_ & H & _).
    fold (since_last this_handleCtrlY (es ++ [Fire this_handleCtrlY])) in H.
    rewrite since_last_snoc in H. eapply pulse_ok_fresh, H.
Qed.

(** *** Sessions *)

Lemma run_snoc (w : world) (es : list event) (e : event) :
  run w (es ++ [e]) = step (run w es) e.
Proof. unfold run. now rewrite fold_left_app. Qed.

Lemma run_app (w : world) (es1 es2 : list event) :
  run w (es1 ++ es2) = run (run w es1) es2.
Proof. unfold run. now rewrite fold_left_app. Qed.

Lemma run_notified (es : list event) :
  forall w : world,
    didNotifyMaxUndoHistoryToast (this_state (run w es))
    = didNotifyMaxUndoHistoryToast (this_state w) || existsb at_limit es
    /\ toast_count (run w es)
       = (toast_count w
          + (if negb (didNotifyMaxUndoHistoryToast (this_state w))
                && existsb at_limit es
             then 1 else 0))%nat.
Proof.
  induction es as [|e es IH]; intros w; simpl.
  - rewrite orb_false_r, andb_false_r. split; [reflexivity|lia].
  - destruct (IH (step w e)) as [-> ->].
    rewrite step_didNotify, step_toast_count.
    destruct (didNotifyMaxUndoHistoryToast (this_state w)),
      (at_limit e), (existsb at_limit es); simpl; split;
      reflexivity || lia.
Qed.

Lemma mount_notified (p : props) (s : store) (es : list event) :
  didNotifyMaxUndoHistoryToast (this_state (run (mount p s) es))
  = existsb at_limit es
  /\ toast_count (run (mount p s) es)
     = (if existsb at_limit es then 1 else 0)%nat.
Proof.
  destruct (run_notified es (mount p s)) as [-> ->]. simpl.
  split; [reflexivity|]. unfold toast_count. simpl.
  now destruct (existsb at_limit es).
Qed.

Lemma at_limit_counting (p : props) (k : nat) :
  0 <= UNDO_LIMIT ->
  existsb at_limit
    (map (fun n => Receive (with_undoLength (Z.of_nat n) p)) (seq 0 k))
  = (UNDO_LIMIT <? Z.of_nat k).
Proof.
  intros H0. induction k as [|k IH].
  - simpl. symmetry. apply Z.ltb_ge. exact H0.
  - rewrite seq_S, map_app, existsb_app, IH. simpl.
    rewrite orb_false_r.
    destruct (Z.ltb_spec UNDO_LIMIT (Z.of_nat k)),
      (Z.leb_spec (UNDO_LIMIT - Z.of_nat k) 0),
      (Z.ltb_spec UNDO_LIMIT (Z.of_nat (S k))); simpl; try reflexivity; lia.
Qed.

Lemma counting_up_prefix (p : props) (k : nat) :
  (k <= Z.to_nat (UNDO_LIMIT + 2))%nat ->
  firstn k (counting_up p)
  = map (fun n => Receive (with_undoLength (Z.of_nat n) p)) (seq 0 k).
Proof.
  intros Hk. unfold counting_up.
  rewrite List.firstn_map, take_seq. now rewrite Nat.min_l.
Qed.

(** C1: in a session the notification callback [maxUndoHistoryToast] is
    called at most once; it has been called exactly when some update
    brought [UNDO_LIMIT - undoLength <= 0]; an event calls it exactly when
    it is such an update and no notification was sent before.  For the
    updates [undoLength = 0, 1, ..., UNDO_LIMIT + 1] it is called once, by
    the update with [undoLength = UNDO_LIMIT]. *)
Theorem history_limit_toast_once (p : props) (s : store) (es : list event) :
  (toast_count (run (mount p s) es) <= 1)%nat
  /\ toast_count (run (mount p s) es)
     = (if existsb at_limit es then 1 else 0)%nat
  /\ (forall e : event,
         toast_count (step (run (mount p s) es) e)
         = (toast_count (run (mount p s) es)
            + (if at_limit e && (toast_count (run (mount p s) es) =? 0)%nat
               then 1 else 0))%nat)
  /\ (0 <= UNDO_LIMIT ->
      toast_count (run (mount p s) (counting_up p)) = 1%nat
      /\ toast_count
           (run (mount p s) (firstn (Z.to_nat UNDO_LIMIT) (counting_up p)))
         = 0%nat
      /\ toast_count
           (run (mount p s) (firstn (S (Z.to_nat UNDO_LIMIT)) (counting_up p)))
         = 1%nat).
Proof.
  destruct (mount_notified p s es) as [Hd Hc].
  split; [|split; [|split]].
  - rewrite Hc. destruct (existsb at_limit es); lia.
  - exact Hc.
  - intros e. rewrite step_toast_count, Hd, Hc.
    now destruct (existsb at_limit es), (at_limit e).
  - intros H0. split; [|split].
    + rewrite (proj2 (mount_notified p s _)). unfold counting_up.
      rewrite at_limit_counting by assumption.
      destruct (Z.ltb_spec UNDO_LIMIT (Z.of_nat (Z.to_nat (UNDO_LIMIT + 2))));
        [reflexivity|lia].
    + rewrite (proj2 (mount_notified p s _)).
      rewrite counting_up_prefix by lia.
      rewrite at_limit_counting by assumption.
      destruct (Z.ltb_spec UNDO_LIMIT (Z.of_nat (Z.to_nat UNDO_LIMIT)));
        [lia|reflexivity].
    + rewrite (proj2 (mount_notified p s _)).
      rewrite counting_up_prefix by lia.
      rewrite at_limit_counting by assumption.
      destruct (Z.ltb_spec UNDO_LIMIT (Z.of_nat (S (Z.to_nat UNDO_LIMIT))));
        [reflexivity|lia].
Qed.

Lemma run_flag_sticky (es : list event) :
  forall w : world,
    store_maxUndoHistoryExceeded (redux w) = true ->
    store_maxUndoHistoryExceeded (redux (run w es)) = true.
Proof.
  induction es as [|e es IH]; intros w H; simpl; [exact H|].
  apply IH, step_flag_sticky, H.
Qed.

Lemma run_flag_seen_is_stored (es : list event) :
  forall w : world, flag_seen_is_stored w -> flag_seen_is_stored (run w es).
Proof.
  induction es as [|e es IH]; intros w H; simpl; [exact H|].
  apply IH, step_flag_seen_is_stored, H.
Qed.

Lemma mount_flag_seen_is_stored (p : props) (s : store) :
  flag_seen_is_stored (mount p s).
Proof. intros H. exact H. Qed.

Lemma run_flag_seen (es : list event) :
  forall w : world,
    store_maxUndoHistoryExceeded (redux w) = true ->
    maxUndoHistoryExceeded (this_props w) = true ->
    maxUndoHistoryExceeded (this_props (run w es)) = true.
Proof.
  induction es as [|e es IH]; intros w Hs Hp; simpl; [exact Hp|].
  apply IH; [now apply step_flag_sticky|].
  rewrite step_this_props. destruct e; auto.
Qed.

(** C2: once an update with [undoLength > UNDO_LIMIT] has been received
    the sticky flag is up in the store (the collaborator that owns it)
    after that update and after every later event, updates with a smaller
    [undoLength] included; [this.props], which lags behind the store,
    shows it from the next delivery of props on.  No event lowers the
    flag.  On the component's side: it calls [setMaxUndoHistoryExceeded]
    at an update exactly when [undoLength > UNDO_LIMIT] and its current
    props do not show the flag, and at no other event. *)
Theorem max_undo_history_exceeded_sticky :
  (forall (p : props) (s : store) (es1 : list event) (nextProps : props)
          (es2 : list event),
      undoLength nextProps > UNDO_LIMIT ->
      store_maxUndoHistoryExceeded
        (redux (run (mount p s) (es1 ++ Receive nextProps :: es2))) = true)
  /\ (forall (p : props) (s : store) (es1 : list event) (nextProps : props)
             (es2 : list event) (laterProps : props) (es3 : list event),
         undoLength nextProps > UNDO_LIMIT ->
         maxUndoHistoryExceeded
           (this_props
              (run (mount p s)
                 (es1 ++ Receive nextProps :: es2
                      ++ Receive laterProps :: es3))) = true)
  /\ (forall (w : world) (e : event),
         store_maxUndoHistoryExceeded (redux w) = true ->
         store_maxUndoHistoryExceeded (redux (step w e)) = true)
  /\ (forall (w : world) (e : event),
         HeaderViews.count_calls HeaderViews.is_setMaxUndoHistoryExceeded
           (step w e)
         = (HeaderViews.count_calls HeaderViews.is_setMaxUndoHistoryExceeded w
            + (match e with
               | Receive nextProps =>
                   if (undoLength nextProps >? UNDO_LIMIT)
                      && negb (maxUndoHistoryExceeded (this_props w))
                   then 1 else 0
               | _ => 0
               end))%nat).
Proof.
  assert (forall p s es1 nextProps es2,
             undoLength nextProps > UNDO_LIMIT ->
             store_maxUndoHistoryExceeded
               (redux (run (mount p s) (es1 ++ Receive nextProps :: es2)))
             = true) as Hstore.
  { intros p s es1 nextProps es2 Hn.
    rewrite run_app. simpl. apply run_flag_sticky.
    apply receive_over_limit; [|exact Hn].
    apply run_flag_seen_is_stored, mount_flag_seen_is_stored. }
  split; [exact Hstore|]. split; [|split].
  - intros p s es1 nextProps es2 laterProps es3 Hn.
    replace (es1 ++ Receive nextProps :: es2 ++ Receive laterProps :: es3)
      with ((es1 ++ Receive nextProps :: es2) ++ Receive laterProps :: es3)
      by (rewrite <- app_assoc; reflexivity).
    rewrite run_app.
    change (run ?w (Receive laterProps :: es3))
      with (run (step w (Receive laterProps)) es3).
    specialize (Hstore p s es1 nextProps es2 Hn).
    apply run_flag_seen.
    + now apply step_flag_sticky.
    + rewrite step_this_props. exact Hstore.
  - exact step_flag_sticky.
  - exact step_count_setMax.
Qed.

(** C8: [overwriteDashboard] calls [onSave] once, with an object of
    exactly the five properties [positions] (the layout),
    [expanded_slices], [css], [dashboard_title] and [default_filters] (the
    filters run through [JSON.stringify]), the dashboard id and
    [SAVE_TYPE_OVERWRITE]; it arms no timer and changes no state, and no
    other event of a session calls [onSave]. *)
Theorem overwrite_saves_once (w : world) :
  calls (overwriteDashboard w)
  = calls w ++ [onSave (JObj (save_data (this_props w)))
                       (id (dashboardInfo (this_props w)))
                       SAVE_TYPE_OVERWRITE]
  /\ map fst (save_data (this_props w))
     = ["positions"; "expanded_slices"; "css"; "dashboard_title";
        "default_filters"]%string
  /\ get_field "positions" (save_data (this_props w))
     = Some (layout (this_props w))
  /\ get_field "expanded_slices" (save_data (this_props w))
     = Some (expandedSlices (this_props w))
  /\ get_field "css" (save_data (this_props w))
     = Some (JStr (css (this_props w)))
  /\ get_field "dashboard_title" (save_data (this_props w))
     = Some (JStr (dashboardTitle (this_props w)))
  /\ get_field "default_filters" (save_data (this_props w))
     = Some (JStr (JSON_stringify (filters (this_props w))))
  /\ save_count (overwriteDashboard w) = S (save_count w)
  /\ this_state (overwriteDashboard w) = this_state w
  /\ window (overwriteDashboard w) = window w
  /\ (forall e : event,
         save_count (step w e)
         = (save_count w
            + match e with Fire this_overwriteDashboard => 1 | _ => 0 end)%nat).
Proof.
  repeat split.
  - unfold overwriteDashboard. rewrite save_count_invoke. simpl. lia.
  - apply step_save_count.
Qed.

(** C9: [toggleEditMode] makes one call, [setEditMode] with the negation
    of the current [editMode] prop, and touches neither its props, its
    state nor the timers.  In the store (the collaborator that owns the
    flag and the history) the edit mode is thereby negated, which the
    component sees in the props of the next delivery, and the history
    stack is what it was.  Over all events: the history moves only at the
    four events that forward an undo or a redo, and the edit mode only at
    [toggleEditMode]. *)
Theorem toggleEditMode_frame :
  (forall w : world,
      calls (toggleEditMode w)
      = calls w ++ [setEditMode (negb (editMode (this_props w)))]
      /\ this_props (toggleEditMode w) = this_props w
      /\ this_state (toggleEditMode w) = this_state w
      /\ window (toggleEditMode w) = window w
      /\ store_editMode (redux (toggleEditMode w))
         = negb (editMode (this_props w))
      /\ past (redux (toggleEditMode w)) = past (redux w)
      /\ present (redux (toggleEditMode w)) = present (redux w)
      /\ future (redux (toggleEditMode w)) = future (redux w)
      /\ (forall nextProps : props,
             editMode (this_props (step (toggleEditMode w) (Receive nextProps)))
             = negb (editMode (this_props w))))
  /\ (forall (w : world) (e : event),
         undoes_or_redoes e = false ->
         past (redux (step w e)) = past (redux w)
         /\ present (redux (step w e)) = present (redux w)
         /\ future (redux (step w e)) = future (redux w))
  /\ (forall (w : world) (e : event),
         toggles_edit_mode e = false ->
         store_editMode (redux (step w e)) = store_editMode (redux w)).
Proof.
  split; [|split].
  - intros w. repeat split.
  - exact step_history.
  - exact step_store_editMode.
Qed.
End Session.

Lemma history_limit_toast_once_witness :
  0 <= @UNDO_LIMIT sample_imports
  /\ toast_count
       (@run sample_imports (mount sample_props sample_store)
          (@counting_up sample_imports sample_props)) = 1%nat.
Proof.
  split; [simpl; lia|].
  apply (proj2 (proj2 (proj2
    (@history_limit_toast_once sample_imports sample_props sample_store [])))).
  simpl; lia.
Defined.

Lemma max_undo_history_exceeded_sticky_witness :
  undoLength (with_undoLength 51 sample_props) > @UNDO_LIMIT sample_imports
  /\ store_maxUndoHistoryExceeded
       (redux (@run sample_imports (mount sample_props sample_store)
                 ([Receive (with_undoLength 50 sample_props)]
                  ++ Receive (with_undoLength 51 sample_props)
                     :: [Fire props_onUndo;
                         Receive (with_undoLength 3 sample_props)])))
     = true.
Proof.
  split; [simpl; lia|].
  apply (proj1 (@max_undo_history_exceeded_sticky sample_imports)).
  simpl; lia.
Defined.

Lemma toggleEditMode_frame_witness :
  let w := mount sample_props
             {| store_editMode := true;
                store_maxUndoHistoryExceeded := false;
                past := [JObj [("ROOT", JNum 1)]];
                present := JObj [("ROOT", JNum 2)];
                future := [] |} in
  undoes_or_redoes (Fire this_toggleEditMode) = false
  /\ past (redux (@step sample_imports w (Fire this_toggleEditMode)))
     = [JObj [("ROOT", JNum 1)]].
Proof.
  intros w. split; [reflexivity|].
  apply (proj1 (proj2 (@toggleEditMode_frame sample_imports)) w
           (Fire this_toggleEditMode)).
  reflexivity.
Defined.

(** *** The model run on concrete sessions *)

(** Undo twice 60 ms apart: 60 ms after the second press the pulse is still
    on, although 120 ms have passed since the first; 40 ms later it is
    off. *)
Example pulse_restarts :
  let w := @run sample_imports (mount sample_props sample_store)
             [Fire this_handleCtrlZ; Elapse 60; Fire this_handleCtrlZ; Elapse 60] in
  emphasizeUndo (this_state w) = true
  /\ List.map fires_at (timers (window w)) = [160]
  /\ emphasizeUndo (this_state (@step sample_imports w (Elapse 40))) = false.
Proof. vm_compute. auto. Qed.

(** The redo flag starts out [undefined] and is independent of undo. *)
Example redo_pulse_independent :
  let w := @run sample_imports (mount sample_props sample_store)
             [Fire this_handleCtrlY; Elapse 99; Fire this_handleCtrlZ; Elapse 1] in
  emphasizeRedo (initial_state sample_props) = None
  /\ emphasizeRedo (this_state w) = Some false
  /\ emphasizeUndo (this_state w) = true.
Proof. vm_compute. auto. Qed.

(** Updates 49, 50, 51, 50, 52 with [UNDO_LIMIT = 50]: one toast, one
    [setMaxUndoHistoryExceeded]. *)
Example limit_calls :
  calls (@run sample_imports (mount sample_props sample_store)
           (map (fun n => Receive (with_undoLength n sample_props))
                [49; 50; 51; 50; 52]))
  = [maxUndoHistoryToast; setMaxUndoHistoryExceeded].
Proof. vm_compute. reflexivity. Qed.

(** An undo moves an entry of the history, a switch of the edit mode
    does not. *)
Example undo_moves_history :
  let w := mount sample_props
             {| store_editMode := true;
                store_maxUndoHistoryExceeded := false;
                past := [JObj [("ROOT", JNum 1)]];
                present := JObj [("ROOT", JNum 2)];
                future := [] |} in
  past (redux (handleCtrlZ w)) = []
  /\ future (redux (handleCtrlZ w)) = [JObj [("ROOT", JNum 2)]]
  /\ past (redux (toggleEditMode w)) = [JObj [("ROOT", JNum 1)]]
  /\ editMode (this_props (toggleEditMode w)) = true
  /\ store_editMode (redux (toggleEditMode w)) = false.
Proof. vm_compute. auto. Qed.

(** Updates 51 and 52 with [UNDO_LIMIT = 50]: the props of the second
    update are made from the store and show the flag, but [this.props]
    still is the first update's, so the call is made again. *)
Example flag_call_repeated :
  calls (@run sample_imports (mount sample_props sample_store)
           (map (fun n => Receive (with_undoLength n sample_props)) [51; 52]))
  = [maxUndoHistoryToast; setMaxUndoHistoryExceeded;
     setMaxUndoHistoryExceeded].
Proof. vm_compute. reflexivity. Qed.

Example overwrite_call :
  calls (@overwriteDashboard sample_imports (mount sample_props sample_store))
  = [onSave
       (JObj [("positions", JObj []); ("expanded_slices", JObj []);
              ("css", JStr ""); ("dashboard_title", JStr "Sales");
              ("default_filters", JStr "{}")])
       (JNum 7) "overwrite"].
Proof. reflexivity. Qed.

End HeaderFacts.

(** * Further properties of the code *)

(** ** The two tables *)

Module TablesFacts.
Import Registry Catalog.
Local Open Scope list_scope.

Lemma define_properties_sound (l : list (string * string)) (k v : string) :
  define_properties l ∅ !! k = Some v -> In (k, v) l.
Proof.
  intros H.
  destruct (in_dec string_dec k (map fst l)) as [Hin|Hout].
  - destruct (RegistryFacts.define_properties_bound l ∅ k Hin) as [v' [Hv' Hl]].
    congruence.
  - rewrite RegistryFacts.define_properties_other in H by assumption.
    rewrite lookup_empty in H. discriminate.
Qed.

Lemma define_properties_size (l : list (string * string)) :
  forall m : gmap string string,
    List.NoDup (map fst l) ->
    (forall k, In k (map fst l) -> m !! k = None) ->
    size (define_properties l m) = (size m + length l)%nat.
Proof.
  induction l as [|[k v] l IH]; intros m Hnd Hfresh; simpl.
  - unfold define_properties. simpl. lia.
  - inversion Hnd as [|? ? Hk Hnd']; subst.
    unfold define_properties in *. simpl. rewrite IH.
    + rewrite map_size_insert_None by (apply Hfresh; now left). lia.
    + exact Hnd'.
    + intros k' Hk'. rewrite lookup_insert_ne.
      * apply Hfresh. now right.
      * intros ->. contradiction.
Qed.

Lemma viz_keys_NoDup : List.NoDup (map fst viz_types_properties).
Proof.
  apply (NoDup_count_occ' string_dec). intros x Hx.
  vm_compute in Hx.
  repeat (destruct Hx as [<-|Hx]; [vm_compute; reflexivity|]).
  contradiction.
Qed.

Lemma read_property_own_inv (obj : gmap string string) (key value : string) :
  read_property obj key = Own value -> obj !! key = Some value.
Proof.
  unfold read_property. destruct (obj !! key) as [v|].
  - now intros [= ->].
  - destruct (existsb _ _); discriminate.
Qed.

(** X1: every property [viz_types] defines has its own name as value;
    the 48 names are pairwise different, none overwrites another, and none
    is the name of a member of [Object.prototype].  Reading a name gives
    that name back when it is one of the 48, the inherited member when it
    names a member of [Object.prototype], and [undefined] otherwise. *)
Theorem viz_types_identity :
  (forall k v : string, read_property viz_types k = Own v -> v = k)
  /\ size viz_types = 48%nat
  /\ (forall k : string, In k (map fst viz_types_properties) ->
                         read_property viz_types k = Own k
                         /\ ~ In k Object_prototype_names)
  /\ (forall k : string,
         ~ In k (map fst viz_types_properties) ->
         In k Object_prototype_names ->
         read_property viz_types k = Inherited k)
  /\ (forall k : string,
         ~ In k (map fst viz_types_properties) ->
         ~ In k Object_prototype_names ->
         read_property viz_types k = Undefined).
Proof.
  assert (forall k v, In (k, v) viz_types_properties -> v = k) as Hid.
  { intros k v H. vm_compute in H.
    repeat (destruct H as [[= <- <-]|H]; [reflexivity|]). contradiction. }
  split; [|split; [|split; [|split]]].
  - intros k v H. apply Hid, define_properties_sound.
    now apply read_property_own_inv.
  - unfold viz_types. rewrite define_properties_size.
    + reflexivity.
    + exact viz_keys_NoDup.
    + intros k _. apply lookup_empty.
  - intros k Hk. split.
    + destruct (RegistryFacts.define_properties_bound viz_types_properties ∅ k Hk)
        as [v [Hv Hl]].
      unfold viz_types. rewrite (RegistryFacts.read_property_own _ _ _ Hl).
      f_equal. now apply Hid.
    + vm_compute in Hk.
      repeat (destruct Hk as [<-|Hk];
              [vm_compute; intuition discriminate|]).
      contradiction.
  - intros k Hk Hproto. apply RegistryFacts.read_property_inherited;
      [|exact Hproto].
    unfold viz_types.
    rewrite RegistryFacts.define_properties_other by assumption.
    apply lookup_empty.
  - intros k Hk Hproto. apply RegistryFacts.read_property_undefined;
      [|exact Hproto].
    unfold viz_types.
    rewrite RegistryFacts.define_properties_other by assumption.
    apply lookup_empty.
Qed.

Lemma viz_types_identity_witness :
  In "bar" (map fst viz_types_properties)
  /\ read_property viz_types "bar" = Own "bar".
Proof.
  assert (In "bar" (map fst viz_types_properties)) as H
    by (right; left; reflexivity).
  split; [exact H|].
  exact (proj1 (proj1 (proj2 (proj2 viz_types_identity)) "bar" H)).
Defined.

Lemma define_properties_size_le (l : list (string * string)) :
  forall m : gmap string string,
    (size (define_properties l m) <= size m + length l)%nat.
Proof.
  induction l as [|[k v] l IH]; intros m; simpl.
  - unfold define_properties. simpl. lia.
  - unfold define_properties in *. simpl.
    specialize (IH (<[k:=v]> m)). rewrite map_size_insert in IH.
    destruct (m !! k); simpl in IH; lia.
Qed.

Lemma NoDup_values_injective (l : list (string * string)) (a b v : string) :
  List.NoDup (map snd l) -> In (a, v) l -> In (b, v) l -> a = b.
Proof.
  induction l as [|[k0 v0] l IH]; simpl; intros Hnd Ha Hb.
  - contradiction.
  - inversion Hnd as [|? ? Hnotin Hnd']; subst.
    destruct Ha as [Ha|Ha], Hb as [Hb|Hb].
    + congruence.
    + inversion Ha; subst. exfalso. apply Hnotin.
      change v with (snd (b, v)). now apply in_map.
    + inversion Hb; subst. exfalso. apply Hnotin.
      change v with (snd (a, v)). now apply in_map.
    + now apply IH.
Qed.

(** X2: whatever the imported constants are, a type tag the registry
    answers with is one the literal writes next to that id, and an answer
    that is not a type tag is [undefined] or the member of that name
    inherited from [Object.prototype]; the literal defines at most eight
    properties, exactly eight when the ids are pairwise different; when
    the type tags are pairwise different no two ids get the same tag. *)
Theorem registry_sound_and_injective
    (types : ComponentTypes) (ids : NewComponentIds) :
  (forall id ty : string, type_of_id id = Own ty -> In (id, ty) entries)
  /\ (forall id name : string,
         type_of_id id = Inherited name ->
         name = id /\ In id Object_prototype_names
         /\ ~ In id (map fst entries))
  /\ (size newComponentIdToType <= 8)%nat
  /\ (List.NoDup (map fst entries) -> size newComponentIdToType = 8%nat)
  /\ (List.NoDup (map snd entries) ->
      forall a b ty : string,
        type_of_id a = Own ty -> type_of_id b = Own ty -> a = b).
Proof.
  assert (forall id ty, type_of_id id = Own ty -> In (id, ty) entries) as Hs.
  { intros id ty H. apply define_properties_sound.
    now apply read_property_own_inv. }
  split; [exact Hs|]. split; [|split; [|split]].
  - intros id name. unfold type_of_id, read_property.
    destruct (newComponentIdToType !! id) as [v|] eqn:E; [discriminate|].
    destruct (existsb (String.eqb id) Object_prototype_names) eqn:Ep;
      [|discriminate].
    intros [= <-]. split; [reflexivity|]. split.
    + now apply RegistryFacts.inherits_spec.
    + intros Hin.
      destruct (RegistryFacts.define_properties_bound entries ∅ id Hin)
        as [v [_ Hl]].
      unfold newComponentIdToType in E. congruence.
  - pose proof (define_properties_size_le entries ∅) as H.
    rewrite map_size_empty in H. exact H.
  - intros Hnd. unfold newComponentIdToType.
    rewrite define_properties_size; [reflexivity|exact Hnd|].
    intros k _. apply lookup_empty.
  - intros Hnd a b ty Ha Hb.
    apply Hs in Ha, Hb.
    eapply NoDup_values_injective; eauto.
Qed.

Lemma registry_sound_and_injective_witness :
  @type_of_id RegistrySamples.sample_types RegistrySamples.sample_ids
    "NEW_ROW_ID" = Own "row"
  /\ In ("NEW_ROW_ID", "row")
        (@entries RegistrySamples.sample_types RegistrySamples.sample_ids).
Proof.
  assert (@type_of_id RegistrySamples.sample_types RegistrySamples.sample_ids
            "NEW_ROW_ID" = Own "row") as H by (vm_compute; reflexivity).
  split; [exact H|].
  exact (proj1 (registry_sound_and_injective RegistrySamples.sample_types
                  RegistrySamples.sample_ids) _ _ H).
Defined.

End TablesFacts.

(** ** What the header renders *)

Module HeaderViewsFacts.
Import Header HeaderViews.
Local Open Scope list_scope.

(** *** Rendering *)

Lemma modal_shown (version : string) (p : props) (s : state) :
  shows is_modal (render version p s)
  = negb (String.eqb version "v2") && showV2PreviewModal s.
Proof.
  unfold shows, render.
  destruct (String.eqb version "v2"), (showV2PreviewModal s),
    (dash_save_perm (dashboardInfo p)), (editMode p),
    (hasUnsavedChanges p), (isV2Preview p); reflexivity.
Qed.

(** X3: the v2-preview badge is rendered exactly when the global feature
    toggle is not ["v2"], the preview modal exactly when moreover the state
    flag [showV2PreviewModal] is up, and the save button reads "Persist as
    Dashboard v2" or "Save changes" by that toggle alone: the prop
    [isV2Preview] decides none of the three. *)
Theorem badge_follows_feature_toggle (version : string) (p : props) (s : state) :
  shows is_badge (render version p s) = negb (String.eqb version "v2")
  /\ shows is_modal (render version p s)
     = negb (String.eqb version "v2") && showV2PreviewModal s
  /\ (forall t : string,
         In t (button_texts this_overwriteDashboard (render version p s)) ->
         t = if String.eqb version "v2"
             then "Save changes" else "Persist as Dashboard v2").
Proof.
  unfold shows, button_texts, render.
  destruct (String.eqb version "v2"), (showV2PreviewModal s),
    (dash_save_perm (dashboardInfo p)), (editMode p),
    (hasUnsavedChanges p), (isV2Preview p); simpl;
    intuition congruence.
Qed.

(** X4: the header never renders the save button together with a
    button that switches the edit mode, nor two such buttons: a principal
    with [dash_save_perm] gets exactly one of them, except in view mode
    with unsaved changes and no preview, where there is neither. *)
Theorem save_and_toggle_exclusive (version : string) (p : props) (s : state) :
  length (List.filter saves_or_toggles (buttons (render version p s)))
  = if dash_save_perm (dashboardInfo p)
       && negb (negb (editMode p) && negb (isV2Preview p)
                && hasUnsavedChanges p)
    then 1%nat else 0%nat.
Proof.
  rewrite HeaderFacts.buttons_render.
  destruct (dash_save_perm (dashboardInfo p)), (editMode p),
    (hasUnsavedChanges p), (isV2Preview p); reflexivity.
Qed.

(** X5: the actions dropdown is rendered exactly for a principal with
    [dash_save_perm]; the undo/redo key listeners exactly when moreover the
    header is in edit mode, whatever [undoLength] and [redoLength]; there
    is a button at all only with [dash_save_perm]; the title is editable
    exactly with [dash_edit_perm] in edit mode, with or without
    [dash_save_perm]. *)
Theorem permission_gates (version : string) (p : props) (s : state) :
  shows is_dropdown (render version p s) = dash_save_perm (dashboardInfo p)
  /\ shows is_keylisteners (render version p s)
     = dash_save_perm (dashboardInfo p) && editMode p
  /\ shows is_button (render version p s)
     = dash_save_perm (dashboardInfo p)
       && (editMode p || isV2Preview p || negb (hasUnsavedChanges p))
  /\ title_editable (render version p s)
     = [dash_edit_perm (dashboardInfo p) && editMode p].
Proof.
  unfold shows, title_editable, render.
  destruct (String.eqb version "v2"), (showV2PreviewModal s),
    (dash_save_perm (dashboardInfo p)), (editMode p),
    (hasUnsavedChanges p), (isV2Preview p); simpl; repeat split;
    rewrite ?andb_true_r, ?andb_false_r; reflexivity.
Qed.

Lemma badge_follows_feature_toggle_witness :
  In "Save changes"
     (button_texts this_overwriteDashboard
        (render "v2" sample_props (initial_state sample_props)))
  /\ "Save changes"
     = (if String.eqb "v2" "v2"
        then "Save changes" else "Persist as Dashboard v2")%string.
Proof.
  split; [vm_compute; auto|].
  apply (proj2 (proj2 (badge_follows_feature_toggle "v2" sample_props
                         (initial_state sample_props)))).
  vm_compute; auto.
Defined.

Lemma style_of_emphasis (version : string) (p : props) (s : state) :
  (forall sty, In (props_onUndo, sty) (styled_buttons (render version p s)) ->
               sty = if emphasizeUndo s then Some "primary" else None)
  /\ (forall sty, In (props_onRedo, sty) (styled_buttons (render version p s)) ->
                  sty = if truthy (emphasizeRedo s) then Some "primary" else None).
Proof.
  unfold styled_buttons, render.
  destruct (String.eqb version "v2"), (showV2PreviewModal s),
    (dash_save_perm (dashboardInfo p)), (editMode p),
    (hasUnsavedChanges p), (isV2Preview p); simpl;
    intuition congruence.
Qed.

End HeaderViewsFacts.

(** ** Sessions of the header *)

Module HeaderSessionFacts.
Import Header HeaderViews.
Local Open Scope list_scope.

Section Sessions.
Context {imports : Imports}.

Ltac unfold_methods :=
  unfold handleCtrlZ, handleCtrlY, toggleEditMode, overwriteDashboard,
    toggleShowV2PreviewModal, forceRefresh, handleChangeText, receive,
    componentWillReceiveProps.

Ltac split_cases :=
  match goal with
  | |- context [if ?c then _ else _] => destruct c eqn:?
  | |- context [match ?o with Some _ => _ | None => _ end] => destruct o eqn:?
  | |- context [match ?l with [] => _ | _ :: _ => _ end] => destruct l eqn:?
  end.

(** The world a run of timers leaves, field by field. *)
Lemma timers_run (l : list timer) (w : world) :
  fold_left (fun w tm => run_timer (callback tm) w) l w
  = {| this_props := this_props w;
       this_state := after_timers (existsb (runs emphasizeUndo_off) l)
                       (existsb (runs emphasizeRedo_off) l) (this_state w);
       ctrlYTimeout := ctrlYTimeout w;
       ctrlZTimeout := ctrlZTimeout w;
       window := window w;
       redux := redux w;
       calls := calls w |}.
Proof.
  revert w. induction l as [|tm l IH]; intros w; simpl.
  - destruct w as [? [] ? ? ? ? ?]; reflexivity.
  - rewrite IH.
    generalize (existsb (runs emphasizeUndo_off) l),
      (existsb (runs emphasizeRedo_off) l).
    intros u r. unfold runs, after_timers.
    destruct (callback tm), u, r; reflexivity.
Qed.

Lemma elapse_world (ms : N) (w : world) :
  elapse ms w
  = {| this_props := this_props w;
       this_state :=
         after_timers
           (existsb (runs emphasizeUndo_off)
              (List.filter (is_due (clock (window w) + Z.of_N ms))
                 (timers (window w))))
           (existsb (runs emphasizeRedo_off)
              (List.filter (is_due (clock (window w) + Z.of_N ms))
                 (timers (window w))))
           (this_state w);
       ctrlYTimeout := ctrlYTimeout w;
       ctrlZTimeout := ctrlZTimeout w;
       window := elapsed ms (window w);
       redux := redux w;
       calls := calls w |}.
Proof. unfold elapse. rewrite timers_run. reflexivity. Qed.


Ltac by_step e :=
  destruct e as [nextProps|ms|h|nextText]; cbv [step perform];
  [ unfold_methods
  | rewrite elapse_world
  | destruct h; unfold_methods
  | unfold_methods ];
  simpl; repeat (split_cases; simpl).

(** *** Time *)

Lemma due_later (t1 t2 : Z) (tm : timer) :
  t1 <= t2 -> is_due t1 tm = true -> is_due t2 tm = true.
Proof. unfold is_due. intros H H1. apply Z.leb_le in H1. apply Z.leb_le. lia. Qed.

Lemma existsb_due_split (f : timer -> bool) (t1 t2 : Z) (l : list timer) :
  t1 <= t2 ->
  existsb f (List.filter (is_due t2) l)
  = existsb f (List.filter (is_due t1) l)
    || existsb f (List.filter (is_due t2)
                    (List.filter (fun tm => negb (is_due t1 tm)) l)).
Proof.
  intros H. induction l as [|tm l IH]; simpl; [reflexivity|].
  destruct (is_due t1 tm) eqn:E1.
  - rewrite (due_later t1 t2 tm H E1). simpl. rewrite IH.
    now rewrite orb_assoc.
  - simpl. destruct (is_due t2 tm) eqn:E2; simpl; rewrite IH.
    + destruct (f tm); simpl; [now rewrite orb_true_r|reflexivity].
    + reflexivity.
Qed.

Lemma not_due_twice (t1 t2 : Z) (l : list timer) :
  t1 <= t2 ->
  List.filter (fun tm => negb (is_due t2 tm))
    (List.filter (fun tm => negb (is_due t1 tm)) l)
  = List.filter (fun tm => negb (is_due t2 tm)) l.
Proof.
  intros H. induction l as [|tm l IH]; simpl; [reflexivity|].
  destruct (is_due t1 tm) eqn:E1; simpl.
  - rewrite (due_later t1 t2 tm H E1). simpl. exact IH.
  - destruct (is_due t2 tm); simpl; now rewrite IH.
Qed.

Lemma after_timers_twice (u1 r1 u2 r2 : bool) (s : state) :
  after_timers u2 r2 (after_timers u1 r1 s) = after_timers (u1 || u2) (r1 || r2) s.
Proof. destruct u1, r1, u2, r2; reflexivity. Qed.

(** X6: letting [a] and then [b] milliseconds pass leaves the component
    and the page exactly as letting [a + b] pass at once: the two timer
    callbacks only switch their own flag off, so neither their order nor
    the moment within the interval matters. *)
Theorem elapse_additive (a b : N) (w : world) :
  elapse b (elapse a w) = elapse (a + b) w.
Proof.
  rewrite !elapse_world. simpl.
  replace (clock (window w) + Z.of_N (a + b))
    with (clock (window w) + Z.of_N a + Z.of_N b) by lia.
  rewrite after_timers_twice.
  rewrite <- !existsb_due_split by lia.
  unfold elapsed at 1. simpl.
  rewrite not_due_twice by lia.
  unfold elapsed.
  replace (clock (window w) + Z.of_N (a + b))
    with (clock (window w) + Z.of_N a + Z.of_N b) by lia.
  reflexivity.
Qed.

(** X7: the passing of time calls no function prop and changes neither
    the props, the store, the handle fields, nor the other state flags; it
    arms no timer and raises no emphasis flag, it can only lower one. *)
Theorem time_only_lowers_emphasis (ms : N) (w : world) :
  calls (elapse ms w) = calls w
  /\ redux (elapse ms w) = redux w
  /\ this_props (elapse ms w) = this_props w
  /\ ctrlZTimeout (elapse ms w) = ctrlZTimeout w
  /\ ctrlYTimeout (elapse ms w) = ctrlYTimeout w
  /\ next_handle (window (elapse ms w)) = next_handle (window w)
  /\ clock (window (elapse ms w)) = clock (window w) + Z.of_N ms
  /\ incl (timers (window (elapse ms w))) (timers (window w))
  /\ implb (emphasizeUndo (this_state (elapse ms w)))
           (emphasizeUndo (this_state w)) = true
  /\ implb (truthy (emphasizeRedo (this_state (elapse ms w))))
           (truthy (emphasizeRedo (this_state w))) = true
  /\ didNotifyMaxUndoHistoryToast (this_state (elapse ms w))
     = didNotifyMaxUndoHistoryToast (this_state w)
  /\ showV2PreviewModal (this_state (elapse ms w))
     = showV2PreviewModal (this_state w).
Proof.
  rewrite elapse_world. simpl. repeat split.
  - apply incl_filter.
  - destruct (existsb _ _); [reflexivity|]. now destruct (emphasizeUndo _).
  - destruct (existsb (runs emphasizeRedo_off) _); [reflexivity|].
    now destruct (truthy _).
Qed.

(** *** Unmounting *)

Lemma in_clear_handle (h : option positive) (b : browser) (tm : timer) :
  In tm (timers (clear_handle h b)) <->
  In tm (timers b) /\ h <> Some (handle tm).
Proof.
  destruct h as [i|]; simpl.
  - rewrite filter_In, negb_true_iff, Pos.eqb_neq. split.
    + intros [H Hn]. split; [exact H|]. congruence.
    + intros [H Hn]. split; [exact H|]. congruence.
  - split; [intros H; split; [exact H|discriminate]|tauto].
Qed.

Lemma pulse_ok_armed_handle (cb : timer_callback) (h : option positive)
    (flag : bool) (d : option N) (b : browser) (tm : timer) :
  pulse_ok cb h flag d b -> In tm (armed cb b) -> h = Some (handle tm).
Proof.
  unfold pulse_ok. destruct d as [d|].
  - intros (i & -> & _ & H). destruct (d <? 100)%N; destruct H as [_ ->];
      simpl; [|contradiction].
    intros [<-|[]]. reflexivity.
  - intros (_ & _ & ->) [].
Qed.

(** X8: after any session [componentWillUnmount] leaves none of the
    component's timers pending and calls nothing, so that no [setState]
    runs on the unmounted component however much time passes. *)
Theorem unmount_leaves_no_timer (p : props) (s : store) (es : list event) :
  timers (window (componentWillUnmount (run (mount p s) es))) = []
  /\ calls (componentWillUnmount (run (mount p s) es))
     = calls (run (mount p s) es)
  /\ (forall ms : N,
         this_state (elapse ms (componentWillUnmount (run (mount p s) es)))
         = this_state (run (mount p s) es)).
Proof.
  destruct (HeaderFacts.run_pulses_ok es None None _
              (HeaderFacts.mount_pulses_ok p s)) as (HZ & HY & _).
  set (w := run (mount p s) es) in *.
  assert (timers (window (componentWillUnmount w)) = []) as Hnone.
  { destruct (timers (window (componentWillUnmount w))) as [|tm l] eqn:E;
      [reflexivity|exfalso].
    assert (In tm (timers (window (componentWillUnmount w)))) as Hin
      by (rewrite E; now left).
    unfold componentWillUnmount in Hin. simpl in Hin.
    apply in_clear_handle in Hin. destruct Hin as [Hin HnZ].
    apply in_clear_handle in Hin. destruct Hin as [Hin HnY].
    destruct (callback tm) eqn:Ecb.
    - apply HnY. eapply pulse_ok_armed_handle; [exact HY|].
      unfold armed. apply filter_In. split; [exact Hin|].
      unfold runs. now rewrite Ecb.
    - apply HnZ. eapply pulse_ok_armed_handle; [exact HZ|].
      unfold armed. apply filter_In. split; [exact Hin|].
      unfold runs. now rewrite Ecb. }
  split; [exact Hnone|]. split; [reflexivity|].
  intros ms. rewrite elapse_world. simpl.
  change (timers (window (componentWillUnmount w)) = []) in Hnone.
  unfold componentWillUnmount in Hnone. simpl in Hnone. rewrite Hnone. simpl.
  destruct (this_state w); reflexivity.
Qed.


(** *** The emphasis as rendered *)

(** X9: after any session the undo (redo) button, where rendered, has
    [bsStyle] "primary" exactly when fewer than 100 ms have passed since
    the latest run of [handleCtrlZ] ([handleCtrlY]), and no style
    otherwise; clicks on the button itself start no emphasis. *)
Theorem emphasis_rendered_in_pulse_window
    (version : string) (p : props) (s : store) (es : list event) :
  (forall sty,
      In (props_onUndo, sty)
         (styled_buttons (render version (this_props (run (mount p s) es))
                            (this_state (run (mount p s) es)))) ->
      sty = if in_pulse_window this_handleCtrlZ es
            then Some "primary" else None)
  /\ (forall sty,
         In (props_onRedo, sty)
            (styled_buttons (render version (this_props (run (mount p s) es))
                               (this_state (run (mount p s) es)))) ->
         sty = if in_pulse_window this_handleCtrlY es
               then Some "primary" else None).
Proof.
  destruct (HeaderFacts.run_pulses_ok es None None _
              (HeaderFacts.mount_pulses_ok p s)) as (HZ & HY & _).
  apply HeaderFacts.pulse_ok_reads in HZ, HY.
  destruct HZ as [HZ _], HY as [HY _].
  unfold in_pulse_window, since_last. rewrite <- HZ, <- HY.
  apply HeaderViewsFacts.style_of_emphasis.
Qed.

(** *** Fields of the state *)

Lemma step_hightlightRedo (w : world) (e : event) :
  hightlightRedo (this_state (step w e)) = hightlightRedo (this_state w).
Proof. by_step e; reflexivity. Qed.

(** X10: the state field [hightlightRedo] set by the constructor is
    dead: no event of a session changes it and [render] does not read
    it. *)
Theorem hightlightRedo_is_dead :
  (forall (p : props) (s : store) (es : list event),
      hightlightRedo (this_state (run (mount p s) es)) = false)
  /\ (forall (version : string) (p : props) (s : state) (v : bool),
         render version p (with_hightlightRedo v s) = render version p s).
Proof.
  split; [|reflexivity].
  intros p s es.
  assert (forall w, hightlightRedo (this_state (run w es))
                    = hightlightRedo (this_state w)) as H.
  { induction es as [|e es IH]; intros w; simpl; [reflexivity|].
    now rewrite IH, step_hightlightRedo. }
  now rewrite H.
Qed.

Lemma step_showV2PreviewModal (w : world) (e : event) :
  showV2PreviewModal (this_state (step w e))
  = xorb (showV2PreviewModal (this_state w))
         (fires this_toggleShowV2PreviewModal e).
Proof.
  by_step e; rewrite ?xorb_false_r; reflexivity.
Qed.

Lemma count_fires_snoc (h : handler) (es : list event) (e : event) :
  count_fires h (es ++ [e])
  = (count_fires h es + (if fires h e then 1 else 0))%nat.
Proof. apply HeaderFacts.count_snoc. Qed.

(** X11: the state flag [showV2PreviewModal] is the prop [isV2Preview]
    the header was mounted with, flipped once per run of
    [toggleShowV2PreviewModal]; later props do not move it.  The modal is
    rendered when the flag is up and the feature toggle is not ["v2"]. *)
Theorem preview_modal_parity
    (version : string) (p : props) (s : store) (es : list event) :
  showV2PreviewModal (this_state (run (mount p s) es))
  = xorb (isV2Preview p)
         (Nat.odd (count_fires this_toggleShowV2PreviewModal es))
  /\ shows is_modal (render version (this_props (run (mount p s) es))
                       (this_state (run (mount p s) es)))
     = negb (String.eqb version "v2")
       && xorb (isV2Preview p)
               (Nat.odd (count_fires this_toggleShowV2PreviewModal es)).
Proof.
  assert (showV2PreviewModal (this_state (run (mount p s) es))
          = xorb (isV2Preview p)
                 (Nat.odd (count_fires this_toggleShowV2PreviewModal es))) as H.
  { induction es as [|e es IH] using rev_ind.
    - simpl. now rewrite xorb_false_r.
    - rewrite HeaderFacts.run_snoc, step_showV2PreviewModal, IH,
        count_fires_snoc, Nat.odd_add, xorb_assoc.
      now destruct (fires this_toggleShowV2PreviewModal e). }
  split; [exact H|].
  rewrite HeaderViewsFacts.modal_shown.
  now rewrite H.
Qed.


(** *** The log of calls *)

Lemma titles_paired_app (l l2 : list call) :
  titles_paired l = true -> titles_paired (l ++ l2) = titles_paired l2.
Proof.
  assert (forall n l, (length l <= n)%nat -> titles_paired l = true ->
                      titles_paired (l ++ l2) = titles_paired l2) as H.
  { clear l. induction n as [|n IH]; intros l Hn Hl.
    - destruct l; [reflexivity|simpl in Hn; lia].
    - destruct l as [|c l]; [reflexivity|]. simpl in Hn.
      destruct c; simpl in *; try discriminate; try (apply IH; [lia|exact Hl]).
      destruct l as [|c' l']; [discriminate|].
      destruct c'; try discriminate. simpl in *. apply IH; [lia|exact Hl]. }
  apply (H (length l)). lia.
Qed.

Lemma step_titles_paired (w : world) (e : event) :
  titles_paired (calls w) = true -> titles_paired (calls (step w e)) = true.
Proof.
  intros H. by_step e; rewrite <- ?app_assoc;
    rewrite ?titles_paired_app by exact H; try reflexivity; exact H.
Qed.

Lemma step_sends_a_title (w : world) (e : event) :
  forallb sends_a_title (calls w) = true ->
  forallb sends_a_title (calls (step w e)) = true.
Proof.
  intros H. by_step e; rewrite ?forallb_app, ?H; simpl; try reflexivity.
  match goal with
  | E : _ && _ = true |- _ => apply andb_true_iff in E; destruct E as [-> _]
  end.
  reflexivity.
Qed.

Lemma step_title_counts (w : world) (e : event) :
  count_calls is_onChange w = count_calls is_updateDashboardTitle w ->
  count_calls is_onChange (step w e)
  = count_calls is_updateDashboardTitle (step w e).
Proof.
  unfold count_calls. intros H.
  by_step e; rewrite ?HeaderFacts.count_snoc; simpl; lia.
Qed.

Lemma run_invariant (P : world -> Prop) :
  (forall w e, P w -> P (step w e)) ->
  forall es w, P w -> P (run w es).
Proof.
  intros Hstep es. induction es as [|e es IH]; intros w Hw; simpl.
  - exact Hw.
  - apply IH, Hstep, Hw.
Qed.

(** X12: saving an empty title, or the title the dashboard already has,
    does nothing.  In the log of a session no [updateDashboardTitle]
    carries the empty string, each is followed at once by an [onChange],
    and there is no other [onChange]. *)
Theorem title_updates_well_formed :
  (forall w : world, step w (SaveTitle "") = w)
  /\ (forall w : world, step w (SaveTitle (dashboardTitle (this_props w))) = w)
  /\ (forall (p : props) (s : store) (es : list event),
         forallb sends_a_title (calls (run (mount p s) es)) = true
         /\ titles_paired (calls (run (mount p s) es)) = true
         /\ count_calls is_onChange (run (mount p s) es)
            = count_calls is_updateDashboardTitle (run (mount p s) es)).
Proof.
  split; [|split].
  - reflexivity.
  - intros w. simpl. unfold handleChangeText.
    rewrite String.eqb_refl, andb_false_r. reflexivity.
  - intros p s es. split; [|split].
    + apply (run_invariant (fun w => forallb sends_a_title (calls w) = true));
        [exact step_sends_a_title|reflexivity].
    + apply (run_invariant (fun w => titles_paired (calls w) = true));
        [exact step_titles_paired|reflexivity].
    + apply (run_invariant
               (fun w => count_calls is_onChange w
                         = count_calls is_updateDashboardTitle w));
        [exact step_title_counts|reflexivity].
Qed.

Lemma notified_app_done (l l2 : list call) :
  existsb is_toast l = true -> notified_before_flag l = true ->
  notified_before_flag (l ++ l2) = true.
Proof.
  induction l as [|c l IH]; simpl; [discriminate|].
  destruct c; simpl; auto.
Qed.

Lemma notified_app_quiet (l l2 : list call) :
  existsb is_toast l = false ->
  existsb is_setMaxUndoHistoryExceeded l = false ->
  notified_before_flag (l ++ l2) = notified_before_flag l2.
Proof.
  induction l as [|c l IH]; simpl; [reflexivity|].
  destruct c; simpl; auto; discriminate.
Qed.

Lemma step_notification_logged (w : world) (e : event) :
  notification_logged w -> notification_logged (step w e).
Proof.
  unfold notification_logged. intros H.
  rewrite HeaderFacts.step_didNotify.
  destruct (didNotifyMaxUndoHistoryToast (this_state w)) eqn:D;
    destruct H as [H1 H2];
    (destruct e as [nextProps|ms|h|nextText]; cbv [step perform at_limit];
     [ unfold_methods | rewrite elapse_world
     | destruct h; unfold_methods | unfold_methods ];
     simpl; rewrite ?D; simpl).
  all: try (destruct (Z.leb_spec (UNDO_LIMIT - undoLength nextProps) 0),
              (Z.gtb_spec (undoLength nextProps) UNDO_LIMIT); try lia; simpl).
  all: repeat (split_cases; simpl);
    rewrite <- ?app_assoc, ?existsb_app, ?H1, ?H2; simpl;
    rewrite ?(notified_app_done _ _ H1 H2),
      ?(notified_app_quiet _ _ H1 H2); auto.
Qed.

Lemma notified_without_flag (l : list call) :
  existsb is_setMaxUndoHistoryExceeded l = false ->
  notified_before_flag l = true.
Proof.
  induction l as [|c l IH]; simpl; [reflexivity|].
  destruct c; simpl; auto; discriminate.
Qed.

(** X13: in the log of a session [setMaxUndoHistoryExceeded] is never
    called before the notification [maxUndoHistoryToast] has been: the
    flag is not raised without the user having been told. *)
Theorem notified_before_flag_raised (p : props) (s : store) (es : list event) :
  notified_before_flag (calls (run (mount p s) es)) = true
  /\ implb (existsb is_setMaxUndoHistoryExceeded (calls (run (mount p s) es)))
           (existsb is_toast (calls (run (mount p s) es))) = true.
Proof.
  assert (notification_logged (run (mount p s) es)) as H.
  { apply (run_invariant notification_logged);
      [exact step_notification_logged|]. split; reflexivity. }
  unfold notification_logged in H.
  destruct (didNotifyMaxUndoHistoryToast _); destruct H as [H1 H2].
  - split; [exact H2|]. rewrite H1.
    destruct (existsb is_setMaxUndoHistoryExceeded _); reflexivity.
  - split; [now apply notified_without_flag|]. rewrite H2. reflexivity.
Qed.

Lemma run_counts (kind : call -> bool) (f g : event -> bool) :
  (forall w e,
      count_calls kind (step w e)
      = (count_calls kind w + (if f e then 1 else 0) + (if g e then 1 else 0))%nat) ->
  forall es w,
    count_calls kind (run w es)
    = (count_calls kind w + length (List.filter f es)
       + length (List.filter g es))%nat.
Proof.
  intros Hstep es. induction es as [|e es IH]; intros w; simpl.
  - lia.
  - rewrite IH, Hstep. destruct (f e), (g e); simpl; lia.
Qed.

Lemma never_fires (es : list event) :
  length (List.filter (fun _ : event => false) es) = 0%nat.
Proof. induction es; simpl; auto. Qed.

Ltac count_step e :=
  unfold count_calls; by_step e; rewrite ?HeaderFacts.count_snoc; simpl; lia.

Lemma step_count_onUndo (w : world) (e : event) :
  count_calls is_onUndo (step w e)
  = (count_calls is_onUndo w + (if fires props_onUndo e then 1 else 0)
     + (if fires this_handleCtrlZ e then 1 else 0))%nat.
Proof. count_step e. Qed.

Lemma step_count_onRedo (w : world) (e : event) :
  count_calls is_onRedo (step w e)
  = (count_calls is_onRedo w + (if fires props_onRedo e then 1 else 0)
     + (if fires this_handleCtrlY e then 1 else 0))%nat.
Proof. count_step e. Qed.

Lemma step_count_setEditMode (w : world) (e : event) :
  count_calls is_setEditMode (step w e)
  = (count_calls is_setEditMode w
     + (if fires this_toggleEditMode e then 1 else 0)
     + (if false then 1 else 0))%nat.
Proof. count_step e. Qed.

Lemma step_count_toggleBuilderPane (w : world) (e : event) :
  count_calls is_toggleBuilderPane (step w e)
  = (count_calls is_toggleBuilderPane w
     + (if fires props_toggleBuilderPane e then 1 else 0)
     + (if false then 1 else 0))%nat.
Proof. count_step e. Qed.

Lemma step_count_fetchCharts (w : world) (e : event) :
  count_calls is_fetchCharts (step w e)
  = (count_calls is_fetchCharts w
     + (if fires this_forceRefresh e then 1 else 0)
     + (if false then 1 else 0))%nat.
Proof. count_step e. Qed.

Lemma step_forced (w : world) (e : event) :
  forallb is_forced_or_other (calls w) = true ->
  forallb is_forced_or_other (calls (step w e)) = true.
Proof.
  intros H. by_step e; rewrite ?forallb_app, ?H; reflexivity.
Qed.

(** X14: in a session [onUndo] is called once for every click on the
    undo button and once for every run of [handleCtrlZ], whatever
    [undoLength], and by nothing else; likewise [onRedo]; [setEditMode],
    [toggleBuilderPane] and [fetchCharts] are called once per run of their
    handler, and every [fetchCharts] call forces the refresh. *)
Theorem calls_accounted_for (p : props) (s : store) (es : list event) :
  count_calls is_onUndo (run (mount p s) es)
  = (count_fires props_onUndo es + count_fires this_handleCtrlZ es)%nat
  /\ count_calls is_onRedo (run (mount p s) es)
     = (count_fires props_onRedo es + count_fires this_handleCtrlY es)%nat
  /\ count_calls is_setEditMode (run (mount p s) es)
     = count_fires this_toggleEditMode es
  /\ count_calls is_toggleBuilderPane (run (mount p s) es)
     = count_fires props_toggleBuilderPane es
  /\ count_calls is_fetchCharts (run (mount p s) es)
     = count_fires this_forceRefresh es
  /\ forallb is_forced_or_other (calls (run (mount p s) es)) = true.
Proof.
  unfold count_fires.
  rewrite (run_counts _ _ _ step_count_onUndo),
    (run_counts _ _ _ step_count_onRedo),
    (run_counts _ (fires this_toggleEditMode) (fun _ => false)
       step_count_setEditMode),
    (run_counts _ (fires props_toggleBuilderPane) (fun _ => false)
       step_count_toggleBuilderPane),
    (run_counts _ (fires this_forceRefresh) (fun _ => false)
       step_count_fetchCharts),
    !never_fires.
  repeat split; try (unfold count_calls; simpl; lia).
  apply (run_invariant (fun w => forallb is_forced_or_other (calls w) = true));
    [exact step_forced|reflexivity].
Qed.

End Sessions.

Lemma emphasis_rendered_in_pulse_window_witness :
  let w := @run sample_imports (mount sample_props sample_store)
             [Fire this_handleCtrlZ; Elapse 60] in
  In (props_onUndo, Some "primary")
     (styled_buttons (render "v2" (this_props w) (this_state w)))
  /\ Some "primary"
     = (if in_pulse_window this_handleCtrlZ [Fire this_handleCtrlZ; Elapse 60]
        then Some "primary" else None).
Proof.
  intros w. split; [vm_compute; auto|].
  apply (proj1 (@emphasis_rendered_in_pulse_window sample_imports "v2"
                  sample_props sample_store
                  [Fire this_handleCtrlZ; Elapse 60])).
  vm_compute; auto.
Defined.

End HeaderSessionFacts.
